(** * 04_TuneHyperparameters: the tuning notebook as a program

    The notebook is a straight-line script over a remote machine-learning
    platform.  It is embedded here as a computation in a state-and-exception
    monad over the part of the outside world the script touches (the [.env]
    file, the workspace's compute clusters, its runs and its model registry),
    together with the log of the calls the script makes.  The request objects
    the script builds (parameter dictionaries, estimators, the search space,
    the termination policy, the search configuration) are plain data. *)

From Stdlib Require Import ZArith PrimFloat Bool Ascii String.
From stdpp Require Import base option list strings gmap.

Set Warnings "-inexact-float".
Local Open Scope string_scope.
Local Open Scope Z_scope.
Local Open Scope list_scope.

(** ** Values and request objects *)

(** [ds.as_mount()]: a reference to a datastore together with the way the
    remote job reaches it. *)
Record DataReference := {
  ref_datastore : string;
  ref_mode : string;
}.

Definition as_mount (ds : string) : DataReference :=
  {| ref_datastore := ds; ref_mode := "mount" |}.

(** The values found in the script's dictionaries: data references, Python
    integers, Python floats (binary64) and strings. *)
Inductive value :=
| VRef (d : DataReference)
| VInt (n : Z)
| VFloat (x : float)
| VStr (s : string).

(** A Python dictionary with string keys, in insertion order. *)
Definition dict (V : Type) := list (string * V).

Fixpoint dict_get {V} (k : string) (d : dict V) : option V :=
  match d with
  | [] => None
  | (k', v) :: d' => if String.eqb k k' then Some v else dict_get k d'
  end.

(** [d[k] = v]: an existing key keeps its place, a new one goes last. *)
Fixpoint dict_set {V} (k : string) (v : V) (d : dict V) : dict V :=
  match d with
  | [] => [(k, v)]
  | (k', v') :: d' =>
      if String.eqb k k' then (k', v) :: d' else (k', v') :: dict_set k v d'
  end.

Definition keys {V} (d : dict V) : list string := map fst d.

(** The notebook's parameter cell (tagged [parameters]). *)
Record Params := {
  cluster_name : string;
  num_epochs : Z;
  max_total_runs : Z;
}.

Definition default_params : Params :=
  {| cluster_name := "YOUR_CLUSTER_NAME"; num_epochs := 1; max_total_runs := 1 |}.

(** [ContainerRegistry()], whose three attributes are filled from the
    [.env] file ([get_key] yields [None] for a key that is not there). *)
Record ContainerRegistry := {
  address : option string;
  username : option string;
  password : option string;
}.

(** The [PyTorch] estimator, with the keyword arguments the notebook passes
    and the environment variables it sets afterwards. *)
Record Estimator := {
  source_directory : string;
  script_params : dict value;
  compute_target : string;
  entry_script : string;
  use_docker : bool;
  custom_docker_image : option string;
  image_registry_details : ContainerRegistry;
  user_managed : bool;
  use_gpu : bool;
  environment_variables : dict string;
}.

Definition PyTorch (source_directory : string) (script_params : dict value)
    (compute_target entry_script : string) (use_docker : bool)
    (custom_docker_image : option string)
    (image_registry_details : ContainerRegistry)
    (user_managed use_gpu : bool) : Estimator :=
  {| source_directory := source_directory;
     script_params := script_params;
     compute_target := compute_target;
     entry_script := entry_script;
     use_docker := use_docker;
     custom_docker_image := custom_docker_image;
     image_registry_details := image_registry_details;
     user_managed := user_managed;
     use_gpu := use_gpu;
     environment_variables := [] |}.

(** [estimator.run_config.environment.environment_variables[k] = v] *)
Definition set_environment_variable (k v : string) (e : Estimator) : Estimator :=
  {| source_directory := source_directory e;
     script_params := script_params e;
     compute_target := compute_target e;
     entry_script := entry_script e;
     use_docker := use_docker e;
     custom_docker_image := custom_docker_image e;
     image_registry_details := image_registry_details e;
     user_managed := user_managed e;
     use_gpu := use_gpu e;
     environment_variables := dict_set k v (environment_variables e) |}.

(** Parameter expressions of [azureml.train.hyperdrive]: [uniform(lo, hi)]
    and [choice(...)]; the notebook only ever lists strings in a choice. *)
Inductive distribution :=
| uniform (min_value max_value : float)
| choice (options : list string).

(** [RandomParameterSampling(...)] wraps the dictionary it is given. *)
Inductive Sampling :=
| RandomParameterSampling (space : dict distribution).

Definition parameter_space (s : Sampling) : dict distribution :=
  match s with RandomParameterSampling sp => sp end.

(** [BanditPolicy]; the notebook gives the slack as a factor, so the
    alternative [slack_amount] keeps its default [None]. *)
Record BanditPolicy := {
  slack_factor : option float;
  slack_amount : option float;
  evaluation_interval : Z;
  delay_evaluation : Z;
}.

Inductive PrimaryMetricGoal := MAXIMIZE | MINIMIZE.

Record HyperDriveConfig := {
  hd_estimator : Estimator;
  hyperparameter_sampling : Sampling;
  policy : BanditPolicy;
  primary_metric_name : string;
  primary_metric_goal : PrimaryMetricGoal;
  hd_max_total_runs : Z;
  max_concurrent_runs : Z;
}.

Definition script_folder : string := "./torchdetect".

(** *** The single training submission *)
Module SingleRun.

Definition script_params (ds : string) (p : Params) : dict value :=
  [ ("--data_path", VRef (as_mount ds));
    ("--workers", VInt 8);
    ("--learning_rate", VFloat 0.005);
    ("--epochs", VInt (num_epochs p));
    ("--anchor_sizes", VStr "16,32,64,128,256,512");
    ("--anchor_aspect_ratios", VStr "0.25,0.5,1.0,2.0");
    ("--rpn_nms_thresh", VFloat 0.5);
    ("--box_nms_thresh", VFloat 0.3);
    ("--box_score_thresh", VFloat 0.10) ].

Definition estimator (ds : string) (p : Params) (compute_target : string)
    (image_name : option string) (image_registry_details : ContainerRegistry)
    : Estimator :=
  set_environment_variable "PYTHONPATH" "$PYTHONPATH:/cocoapi/PythonAPI/"
    (PyTorch script_folder (script_params ds p) compute_target "train.py" true
       image_name image_registry_details true true).

End SingleRun.

(** *** The hyperparameter search *)
Module Search.

Definition script_params (ds : string) (p : Params) : dict value :=
  [ ("--data_path", VRef (as_mount ds));
    ("--workers", VInt 8);
    ("--epochs", VInt (num_epochs p));
    ("--box_nms_thresh", VFloat 0.3);
    ("--box_score_thresh", VFloat 0.10) ].

Definition estimator (ds : string) (p : Params) (compute_target : string)
    (image_name : option string) (image_registry_details : ContainerRegistry)
    : Estimator :=
  set_environment_variable "PYTHONPATH" "$PYTHONPATH:/cocoapi/PythonAPI/"
    (PyTorch script_folder (script_params ds p) compute_target "train.py" true
       image_name image_registry_details true true).

Definition param_sampling : Sampling :=
  RandomParameterSampling
    [ ("learning_rate", uniform 0.0005 0.005);
      ("rpn_nms_thresh", uniform 0.3 0.7);
      ("anchor_sizes",
        choice [ "16"; "16,32"; "16,32,64"; "16,32,64,128";
                 "16,32,64,128,256"; "16,32,64,128,256,512" ]);
      ("anchor_aspect_ratios",
        choice [ "0.25"; "0.25,0.5"; "0.25,0.5,1.0"; "0.25,0.5,1.0,2.0" ]) ].

Definition early_termination_policy : BanditPolicy :=
  {| slack_factor := Some 0.15%float;
     slack_amount := None;
     evaluation_interval := 2;
     delay_evaluation := 2 |}.

Definition hyperdrive_config (estimator : Estimator) (p : Params) : HyperDriveConfig :=
  {| hd_estimator := estimator;
     hyperparameter_sampling := param_sampling;
     policy := early_termination_policy;
     primary_metric_name := "mAP@IoU=0.50";
     primary_metric_goal := MAXIMIZE;
     hd_max_total_runs := max_total_runs p;
     max_concurrent_runs := 4 |}.

End Search.

(** ** What a search space admits *)

(** Modelled from the spec: the platform draws the assignments, the
    notebook only declares the space, in which "each parameter [is] mapped
    to either a continuous uniform range or a discrete choice set".
    [admits d v] says that [v] is a value the expression [d] can yield: a
    float between the two bounds of a [uniform], bounds included, or one of
    the options of a [choice]. *)
Definition admits (d : distribution) (v : value) : bool :=
  match d, v with
  | uniform lo hi, VFloat x => (PrimFloat.leb lo x && PrimFloat.leb x hi)%bool
  | choice opts, VStr s => existsb (String.eqb s) opts
  | _, _ => false
  end.

(** An assignment is drawn from a space when it gives every declared
    parameter an admitted value and names no other parameter. *)
Definition drawn_from (space : dict distribution) (a : dict value) : bool :=
  forallb (fun kd => match dict_get (fst kd) a with
                     | Some v => admits (snd kd) v
                     | None => false
                     end) space
  && forallb (fun kv => match dict_get (fst kv) space with
                        | Some _ => true
                        | None => false
                        end) a.

(** The name of the parameter a command-line flag stands for: the key
    ["--epochs"] of a [script_params] dictionary passes the parameter
    [epochs] to the entry script. *)
Definition param_name (key : string) : string :=
  match key with
  | String "-"%char (String "-"%char name) => name
  | _ => key
  end.

Definition flag (name : string) : string := String.append "--" name.

(** ** The outside world *)

Record ProvisioningConfiguration := {
  vm_size : string;
  max_nodes : Z;
}.

(** A compute cluster of the workspace: the configuration it was created
    with, and whether its provisioning has finished. *)
Record Cluster := {
  cluster_config : ProvisioningConfiguration;
  provisioned : bool;
}.

Inductive Submission :=
| Job (e : Estimator)
| Sweep (c : HyperDriveConfig).

(** A run is running until it ends, in one of three ways. *)
Inductive Outcome := Completed | Failed | Canceled.

Inductive RunStatus :=
| Running
| Ended (o : Outcome).

(** A registered model, as [register_model] returns it. *)
Record Model := {
  model_name : string;
  model_version : nat;
  model_path : string;
  model_run : nat;
}.

(** The state the notebook reads and writes: the [.env] file (when there
    is one to be found) as what each of its keys reads as through
    [get_key], the clusters of the workspace by name, the runs of the
    experiment (a run's handle is its position) and the registry's version
    counter for each model name. *)
Record World := {
  dotenv : option (gmap string string);
  clusters : gmap string Cluster;
  runs : list (Submission * RunStatus);
  registry : gmap string nat;
}.

(** The value the [.env] file holds for a key, if any. *)
Definition env_lookup (k : string) (w : World) : option string :=
  dotenv w ≫= lookup k.

Definition set_dotenv (f : gmap string string -> gmap string string) (w : World) : World :=
  {| dotenv := f <$> dotenv w; clusters := clusters w;
     runs := runs w; registry := registry w |}.

Definition set_clusters (f : gmap string Cluster -> gmap string Cluster) (w : World) : World :=
  {| dotenv := dotenv w; clusters := f (clusters w);
     runs := runs w; registry := registry w |}.

Definition set_runs (f : list (Submission * RunStatus) -> list (Submission * RunStatus))
    (w : World) : World :=
  {| dotenv := dotenv w; clusters := clusters w;
     runs := f (runs w); registry := registry w |}.

Definition set_registry (f : gmap string nat -> gmap string nat) (w : World) : World :=
  {| dotenv := dotenv w; clusters := clusters w;
     runs := runs w; registry := f (registry w) |}.

(** The calls the notebook makes, in the order it makes them. *)
Inductive Event :=
| FindDotenv
| SetKey (k v : string)
| GetKey (k : string)
| GetAuth
| WorkspaceFromConfig
| NewExperiment (name : string)
| Makedirs (path : string)
| Copy (src dst : string)
| GetDefaultDatastore
| Upload (src_dir target_path : string) (overwrite show_progress : bool)
| LookupCompute (name : string)
| Print (msg : string)
| CreateCompute (name : string) (cfg : ProvisioningConfiguration)
| WaitCompute (name : string)
| GetStatus (name : string)
| Submit (s : Submission)
| ShowDetails (run : nat)
| GetDetails (run : nat)
| WaitRun (run : nat) (wait_post_processing : bool)
| GetBestRun (run : nat)
| GetMetrics (run : nat)
| RegisterModel (run : nat) (name path : string).

Inductive exn :=
| ComputeTargetException
| IOError
| AttributeError
| ActivityFailedException
| ServiceError (msg : string).

Definition is_ComputeTargetException (e : exn) : bool :=
  match e with ComputeTargetException => true | _ => false end.

(** What the notebook does not decide: whether a call fails (any call may,
    with any exception, depending on all that happened before), which
    datastore is the workspace's default, how a run ends, which child of a
    search the platform reports as its best, and what python-dotenv's
    [set_key] makes of the [.env] file.  [written k v env] is what the file
    reads as, key by key, once [set_key] has rewritten a file that read as
    [env]: the library works on the text of the file, and what it does with
    quotes, with references to other variables or with a last line that has
    no newline is its own. *)
Record Platform := {
  fault : list Event -> Event -> option exn;
  written : string -> string -> gmap string string -> gmap string string;
  default_datastore : string;
  ending : nat -> Outcome;
  best_child : nat -> option nat;
}.

(** ** The monad of the script: state, log, exceptions *)

Inductive Result (A : Type) :=
| Ok (a : A)
| Raise (e : exn).
Arguments Ok {A} a.
Arguments Raise {A} e.

Definition State : Type := World * list Event.

Definition M (A : Type) : Type := State -> Result A * State.

#[global] Instance M_ret : MRet M := fun A a s => (Ok a, s).

#[global] Instance M_bind : MBind M := fun A B f m s =>
  match m s with
  | (Ok a, s') => f a s'
  | (Raise e, s') => (Raise e, s')
  end.

Definition raise {A} (e : exn) : M A := fun s => (Raise e, s).

Definition get_world : M World := fun s => (Ok (fst s), s).

Definition modify (f : World -> World) : M unit := fun s => (Ok tt, (f (fst s), snd s)).

Definition emit (e : Event) : M unit := fun s => (Ok tt, (fst s, (snd s ++ [e])%list)).

(** [try: body except <handled>: handler]; the handler starts from the
    state the failing body left. *)
Definition try_except {A} (body : M A) (handled : exn -> bool) (handler : M A) : M A :=
  fun s =>
    match body s with
    | (Raise e, s') => if handled e then handler s' else (Raise e, s')
    | r => r
    end.

(** Running a script in a fresh session: the log starts empty. *)
Definition exec {A} (m : M A) (w : World) : Result A * State := m (w, []).

Definition result_of {A} (r : Result A * State) : Result A := fst r.
Definition world_of {A} (r : Result A * State) : World := fst (snd r).
Definition log_of {A} (r : Result A * State) : list Event := snd (snd r).

(** ** The notebook *)

Section Notebook.

Variable pf : Platform.

(** A call that leaves the session: it is logged, and it fails when the
    platform says so. *)
Definition call (e : Event) : M unit := fun s =>
  match fault pf (snd s) e with
  | Some x => (Raise x, (fst s, (snd s ++ [e])%list))
  | None => (Ok tt, (fst s, (snd s ++ [e])%list))
  end.

(** *** python-dotenv *)

(** [find_dotenv(raise_error_if_not_found=True)] *)
Definition find_dotenv : M unit :=
  call FindDotenv;;
  w ← get_world;
  match dotenv w with
  | Some _ => mret tt
  | None => raise IOError
  end.

(** [set_key(env_path, k, v)]: python-dotenv rewrites the text of the
    file; what the file reads as afterwards is the library's doing. *)
Definition set_key (k v : string) : M unit :=
  call (SetKey k v);;
  modify (set_dotenv (written pf k v)).

(** [get_key(env_path, k)]: what the file reads as under [k], [None]
    when it has no such key. *)
Definition get_key (k : string) : M (option string) :=
  call (GetKey k);;
  w ← get_world;
  mret (env_lookup k w).

(** Modelled from the spec: [get_auth] is defined in the repository's
    [utilities] module, which is not among the sources at hand.  The
    workspace/auth resolver "reads persisted configuration, authenticates
    to the cloud account": a call that may fail and that writes nothing. *)
Definition get_auth : M unit := call GetAuth.

(** *** Workspace, datastore, local files *)

Definition Workspace_from_config : M unit := call WorkspaceFromConfig.

Definition Experiment (name : string) : M unit := call (NewExperiment name).

Definition makedirs (path : string) : M unit := call (Makedirs path).

Definition copy (src dst : string) : M unit := call (Copy src dst).

Definition get_default_datastore : M string :=
  call GetDefaultDatastore;;
  mret (default_datastore pf).

Definition upload (src_dir target_path : string) (overwrite show_progress : bool) : M unit :=
  call (Upload src_dir target_path overwrite show_progress).

(** *** Compute *)

(** [ComputeTarget(workspace=ws, name=...)]: the handle of the cluster of
    that name, or [ComputeTargetException] when there is none. *)
Definition ComputeTarget (name : string) : M string :=
  call (LookupCompute name);;
  w ← get_world;
  match clusters w !! name with
  | Some _ => mret name
  | None => raise ComputeTargetException
  end.

Definition provisioning_configuration (vm_size : string) (max_nodes : Z)
    : ProvisioningConfiguration :=
  {| vm_size := vm_size; max_nodes := max_nodes |}.

Definition ComputeTarget_create (name : string) (cfg : ProvisioningConfiguration)
    : M string :=
  call (CreateCompute name cfg);;
  modify (set_clusters (insert name {| cluster_config := cfg; provisioned := false |}));;
  mret name.

Definition compute_wait_for_completion (name : string) : M unit :=
  call (WaitCompute name);;
  modify (set_clusters (alter (fun c =>
    {| cluster_config := cluster_config c; provisioned := true |}) name)).

Definition get_status (name : string) : M unit := call (GetStatus name).

(** The cell that resolves the compute target. *)
Definition resolve_compute (p : Params) : M string :=
  compute_target ← try_except
    (compute_target ← ComputeTarget (cluster_name p);
     emit (Print "Found existing compute target.");;
     mret compute_target)
    is_ComputeTargetException
    (emit (Print "Creating a new compute target...");;
     let compute_config := provisioning_configuration "STANDARD_NC6" 8 in
     compute_target ← ComputeTarget_create (cluster_name p) compute_config;
     compute_wait_for_completion compute_target;;
     mret compute_target);
  get_status compute_target;;
  mret compute_target.

(** *** Runs *)

(** [experiment.submit(...)]: the new run is appended to the experiment's
    runs and starts out running. *)
Definition submit (s : Submission) : M nat :=
  call (Submit s);;
  w ← get_world;
  modify (set_runs (fun rs => rs ++ [(s, Running)])%list);;
  mret (length (runs w)).

Definition show_details (run : nat) : M unit := call (ShowDetails run).

Definition get_details (run : nat) : M unit := call (GetDetails run).

(** [run.wait_for_completion(...)] returns once the run has ended; with
    the default [raise_on_error=True] a failed run raises. *)
Definition wait_for_completion (run : nat) (wait_post_processing : bool) : M unit :=
  call (WaitRun run wait_post_processing);;
  modify (set_runs (alter (fun sr => (fst sr, Ended (ending pf run))) run));;
  match ending pf run with
  | Failed => raise ActivityFailedException
  | _ => mret tt
  end.

Definition get_best_run_by_primary_metric (hyperdrive_run : nat) : M (option nat) :=
  call (GetBestRun hyperdrive_run);;
  mret (best_child pf hyperdrive_run).

(** A method of [best_run]: an [AttributeError] when the search reported
    no best run and [best_run] is [None]. *)
Definition on_run {A} (best_run : option nat) (method : nat -> M A) : M A :=
  match best_run with
  | Some r => method r
  | None => raise AttributeError
  end.

Definition get_metrics (run : nat) : M unit := call (GetMetrics run).

(** Modelled from the spec: the model registry belongs to the platform.
    "Each registration with the same name increments a version counter":
    the registry keeps one counter for each name, and a registration
    returns the model with the counter's new value. *)
Definition register_model (name path : string) (run : nat) : M Model :=
  call (RegisterModel run name path);;
  w ← get_world;
  let version := S (default 0%nat (registry w !! name)) in
  modify (set_registry (insert name version));;
  mret {| model_name := name; model_version := version;
          model_path := path; model_run := run |}.

(** *** The cells, top to bottom

    A statement that only displays a value ([print] of a handle, a bare
    expression) leaves nothing in the model; a call it makes to obtain the
    value ([get_status], [get_details]) does, and so do the two messages of
    the compute cell.  The two waits on runs differ in
    [wait_post_processing], which only the second one sets. *)
Definition notebook (p : Params) : M Model :=
  find_dotenv;;
  set_key "cluster_name" (cluster_name p);;
  get_auth;;
  Workspace_from_config;;
  Experiment "torchvision";;
  makedirs script_folder;;
  copy "./scripts/coco_eval.py" script_folder;;
  copy "./scripts/coco_utils.py" script_folder;;
  copy "./scripts/engine.py" script_folder;;
  copy "./scripts/transforms.py" script_folder;;
  copy "./scripts/utils.py" script_folder;;
  copy "./scripts/maskrcnn_model.py" script_folder;;
  copy "./scripts/XMLDataset.py" script_folder;;
  copy "./scripts/train.py" script_folder;;
  ds ← get_default_datastore;
  upload "./scripts/JPEGImages" "JPEGImages" true true;;
  upload "./scripts/Annotations" "Annotations" true true;;
  compute_target ← resolve_compute p;
  image_name ← get_key "image_name";
  address ← get_key "acr_server_name";
  username ← get_key "acr_username";
  password ← get_key "acr_password";
  let image_registry_details :=
    {| address := address; username := username; password := password |} in
  let estimator :=
    SingleRun.estimator ds p compute_target image_name image_registry_details in
  run ← submit (Job estimator);
  show_details run;;
  get_details run;;
  wait_for_completion run false;;
  let estimator :=
    Search.estimator ds p compute_target image_name image_registry_details in
  let hyperdrive_config := Search.hyperdrive_config estimator p in
  hyperdrive_run ← submit (Sweep hyperdrive_config);
  show_details hyperdrive_run;;
  wait_for_completion hyperdrive_run true;;
  best_run ← get_best_run_by_primary_metric hyperdrive_run;
  on_run best_run get_metrics;;
  on_run best_run get_details;;
  on_run best_run (register_model "torchvision_best_model" "/outputs/model_latest.pth").

End Notebook.

(** ** The calls of a complete execution

    Every execution of the notebook issues a prefix of one fixed sequence of
    calls, which depends only on the parameters, on the world the notebook
    starts in, on whether the cluster had to be created and on the run the
    platform reports as the best one. *)

Section Script.

Variable pf : Platform.
Variable p : Params.
Variable w : World.

(** The world once the second cell has written the cluster's name: the
    file is what [set_key] made of it. *)
Definition named : World :=
  set_dotenv (written pf "cluster_name" (cluster_name p)) w.

Definition acr : ContainerRegistry :=
  {| address := env_lookup "acr_server_name" named;
     username := env_lookup "acr_username" named;
     password := env_lookup "acr_password" named |}.

Definition single_estimator : Estimator :=
  SingleRun.estimator (default_datastore pf) p (cluster_name p)
    (env_lookup "image_name" named) acr.

Definition search_config : HyperDriveConfig :=
  Search.hyperdrive_config
    (Search.estimator (default_datastore pf) p (cluster_name p)
       (env_lookup "image_name" named) acr) p.

(** The handles of the two runs the notebook submits. *)
Definition run_handle : nat := length (runs w).
Definition search_handle : nat := S (length (runs w)).

Definition preparation : list Event :=
  [ FindDotenv;
    SetKey "cluster_name" (cluster_name p);
    GetAuth;
    WorkspaceFromConfig;
    NewExperiment "torchvision";
    Makedirs script_folder;
    Copy "./scripts/coco_eval.py" script_folder;
    Copy "./scripts/coco_utils.py" script_folder;
    Copy "./scripts/engine.py" script_folder;
    Copy "./scripts/transforms.py" script_folder;
    Copy "./scripts/utils.py" script_folder;
    Copy "./scripts/maskrcnn_model.py" script_folder;
    Copy "./scripts/XMLDataset.py" script_folder;
    Copy "./scripts/train.py" script_folder;
    GetDefaultDatastore;
    Upload "./scripts/JPEGImages" "JPEGImages" true true;
    Upload "./scripts/Annotations" "Annotations" true true ].

Definition provisioning (created : bool) : list Event :=
  (LookupCompute (cluster_name p) ::
   (if created
    then [ Print "Creating a new compute target...";
           CreateCompute (cluster_name p)
             {| vm_size := "STANDARD_NC6"; max_nodes := 8 |};
           WaitCompute (cluster_name p) ]
    else [ Print "Found existing compute target." ])
   ++ [ GetStatus (cluster_name p) ])%list.

Definition training : list Event :=
  [ GetKey "image_name";
    GetKey "acr_server_name";
    GetKey "acr_username";
    GetKey "acr_password";
    Submit (Job single_estimator);
    ShowDetails run_handle;
    GetDetails run_handle;
    WaitRun run_handle false ].

Definition searching : list Event :=
  [ Submit (Sweep search_config);
    ShowDetails search_handle;
    WaitRun search_handle true;
    GetBestRun search_handle ].

Definition registering : list Event :=
  match best_child pf search_handle with
  | Some best_run =>
      [ GetMetrics best_run;
        GetDetails best_run;
        RegisterModel best_run "torchvision_best_model" "/outputs/model_latest.pth" ]
  | None => []
  end.

Definition script (created : bool) : list Event :=
  (preparation ++ provisioning created ++ training ++ searching ++ registering)%list.

End Script.

(** ** Sequencing

    A monitor for the order of the calls.  An operation that starts remote
    work (creating a cluster, submitting a run) leaves the session waiting:
    until the wait on that very cluster or run, the only calls allowed are
    those that watch it.  A run's best child may only be asked for once the
    run has been waited for. *)

Inductive Pending :=
| Idle
| AwaitCluster (name : string)
| AwaitRun (run : nat).

Record Monitor := {
  next_run : nat;
  pending : Pending;
  completed : list nat;
}.

Definition monitor0 (w : World) : Monitor :=
  {| next_run := length (runs w); pending := Idle; completed := [] |}.

Definition observe (m : Monitor) (e : Event) : option Monitor :=
  match pending m with
  | Idle =>
      match e with
      | Submit _ =>
          Some {| next_run := S (next_run m);
                  pending := AwaitRun (next_run m);
                  completed := completed m |}
      | CreateCompute name _ =>
          Some {| next_run := next_run m;
                  pending := AwaitCluster name;
                  completed := completed m |}
      | WaitCompute _ | WaitRun _ _ => None
      | GetBestRun r =>
          if existsb (Nat.eqb r) (completed m) then Some m else None
      | _ => Some m
      end
  | AwaitCluster name =>
      match e with
      | WaitCompute name' =>
          if String.eqb name name'
          then Some {| next_run := next_run m; pending := Idle;
                       completed := completed m |}
          else None
      | _ => None
      end
  | AwaitRun r =>
      match e with
      | ShowDetails r' | GetDetails r' =>
          if Nat.eqb r r' then Some m else None
      | WaitRun r' _ =>
          if Nat.eqb r r'
          then Some {| next_run := next_run m; pending := Idle;
                       completed := r :: completed m |}
          else None
      | _ => None
      end
  end.

Fixpoint sequential (m : Monitor) (l : list Event) : bool :=
  match l with
  | [] => true
  | e :: l' =>
      match observe m e with
      | Some m' => sequential m' l'
      | None => false
      end
  end.

(** ** Frames *)



(** ** Orders of calls, and the writes among them *)
(** [preceded a b seen l]: in [l], every call of kind [b] comes after a
    call of kind [a] ([seen] tells whether one came before [l]). *)
Fixpoint preceded (a b : Event -> bool) (seen : bool) (l : list Event) : bool :=
  match l with
  | [] => true
  | e :: l' => (if b e then seen else true) && preceded a b (seen || a e) l'
  end.

Definition is_submit_job (e : Event) : bool :=
  match e with Submit (Job _) => true | _ => false end.

Definition is_submit_sweep (e : Event) : bool :=
  match e with Submit (Sweep _) => true | _ => false end.

Definition is_wait_run (run : nat) (post : bool) (e : Event) : bool :=
  match e with
  | WaitRun r b => Nat.eqb r run && Bool.eqb b post
  | _ => false
  end.

Definition uses_best_run (e : Event) : bool :=
  match e with
  | GetBestRun _ | GetMetrics _ | RegisterModel _ _ _ => true
  | _ => false
  end.



(** ** Summary of an execution *)

(** What every execution has in common: its log is a prefix of the script;
    when it returns, the log is the whole script, the model returned is
    the next version, under the fixed name, of the run the platform reported
    as best, and the [.env] file is what the write of the cluster's name
    made of it; when it raises, the registry is as it was. *)
Definition summary (pf : Platform) (p : Params) (w : World)
    (r : Result Model * State) : Prop :=
  (exists created, log_of r `prefix_of` script pf p w created) /\
  (forall m, result_of r = Ok m ->
     (exists created, log_of r = script pf p w created) /\
     (exists best_run,
        best_child pf (search_handle w) = Some best_run /\
        m = {| model_name := "torchvision_best_model";
               model_version := S (default 0%nat (registry w !! "torchvision_best_model"));
               model_path := "/outputs/model_latest.pth";
               model_run := best_run |}) /\
     registry (world_of r) =
       <["torchvision_best_model" :=
           S (default 0%nat (registry w !! "torchvision_best_model"))]> (registry w) /\
     (exists env, dotenv w = Some env /\
        dotenv (world_of r)
        = Some (written pf "cluster_name" (cluster_name p) env))) /\
  (forall e, result_of r = Raise e -> registry (world_of r) = registry w).

(** ** A quiet platform and a small world, to run the notebook on

    On the quiet platform no call fails and [set_key] stores the entry and
    leaves the others as they are, as python-dotenv does on a file of plain
    [key=value] lines that ends with a newline. *)

Definition quiet : Platform :=
  {| fault := fun _ _ => None;
     written := fun k v env => <[k := v]> env;
     default_datastore := "workspaceblobstore";
     ending := fun _ => Completed;
     best_child := fun _ => Some 7%nat |}.

Definition fresh_world : World :=
  {| dotenv := Some (<["image_name" := "torchdetect:latest"]> ∅);
     clusters := ∅;
     runs := [];
     registry := ∅ |}.

(** A world in which the cluster exists already, with another
    configuration, and one version of the model is registered. *)
Definition used_world : World :=
  {| dotenv := Some (<["image_name" := "torchdetect:latest"]> ∅);
     clusters := {[ "YOUR_CLUSTER_NAME" :=
                      {| cluster_config := {| vm_size := "STANDARD_D2_V2"; max_nodes := 2 |};
                         provisioned := true |} ]};
     runs := [];
     registry := {[ "torchvision_best_model" := 1%nat ]} |}.

(** A platform on which the search (the second run submitted) fails. *)
Definition failing_search : Platform :=
  {| fault := fun _ _ => None;
     written := fun k v env => <[k := v]> env;
     default_datastore := "workspaceblobstore";
     ending := fun run => if Nat.eqb run 1 then Failed else Completed;
     best_child := fun _ => Some 7%nat |}.

Definition sample_assignment : dict value :=
  [ ("learning_rate", VFloat 0.001);
    ("rpn_nms_thresh", VFloat 0.5);
    ("anchor_sizes", VStr "16,32");
    ("anchor_aspect_ratios", VStr "0.25") ].

(** ** Failures *)

Definition is_lookup (e : Event) : bool :=
  match e with LookupCompute _ => true | _ => false end.

(** A call lets the script go on when the platform does not fail it; the
    one failure the script goes on from is a [ComputeTargetException] of the
    lookup, and a printed message is no call at all. *)
Definition survives (pf : Platform) (h : list Event) (e : Event) : bool :=
  match e with
  | Print _ => true
  | _ =>
      match fault pf h e with
      | None => true
      | Some x => is_ComputeTargetException x && is_lookup e
      end
  end.

Fixpoint all_survive (pf : Platform) (h : list Event) (l : list Event) : bool :=
  match l with
  | [] => true
  | e :: l' => survives pf h e && all_survive pf (h ++ [e]) l'
  end.

(** Why the notebook raised [x] at its last call [e], made after the calls
    [h]: the platform failed the call; or the call went through and there
    was no [.env] file to find, or the run waited for had failed, or the
    search had no best run to report. *)
Definition cause (pf : Platform) (w : World) (h : list Event) (e : Event) (x : exn) : Prop :=
  fault pf h e = Some x
  \/ (fault pf h e = None /\
      ((e = FindDotenv /\ x = IOError /\ dotenv w = None)
       \/ (exists run post, e = WaitRun run post /\ x = ActivityFailedException
                            /\ ending pf run = Failed)
       \/ (exists run, e = GetBestRun run /\ x = AttributeError
                       /\ best_child pf run = None))).

(** Every call but the last let the script go on, the last one too when
    the notebook returns, and when it raises, the last call is where. *)
Definition account (pf : Platform) (w : World) (r : Result Model * State) : Prop :=
  all_survive pf [] (removelast (log_of r)) = true /\
  (forall m, result_of r = Ok m -> all_survive pf [] (log_of r) = true) /\
  (forall x, result_of r = Raise x ->
     exists e, last (log_of r) = Some e /\ cause pf w (removelast (log_of r)) e x).

(** ** What an execution leaves behind *)

(** The cluster is only created when there is none of that name, or when
    the lookup itself fails with [ComputeTargetException]; a run is only
    submitted to a cluster the workspace has; the runs the experiment had
    stay as they were, and the notebook's own come after them, the single
    training run first; an execution that returns has added exactly these
    two, both ended and neither failed; clusters of another name and models
    of another name are left alone, and so is every cluster unless one is
    created; once the notebook asks for authentication, the [.env] file is
    what the write of the cluster's name left; a cluster the notebook
    created is provisioned by the time anything is submitted; the single
    training run has ended, and not failed, by the time the search is
    submitted, and so has the search by the time its best run is asked
    for. *)
Definition effects (pf : Platform) (p : Params) (w : World)
    (r : Result Model * State) : Prop :=
  (forall n c, CreateCompute n c ∈ log_of r ->
     clusters w !! cluster_name p = None
     \/ fault pf (preparation p) (LookupCompute (cluster_name p))
        = Some ComputeTargetException) /\
  (forall s, Submit s ∈ log_of r ->
     is_Some (clusters (world_of r) !! cluster_name p)) /\
  (exists new, runs (world_of r) = runs w ++ new /\
     map fst new `prefix_of` [ Job (single_estimator pf p w); Sweep (search_config pf p w) ]) /\
  (forall m, result_of r = Ok m ->
     runs (world_of r)
     = runs w ++ [ (Job (single_estimator pf p w), Ended (ending pf (run_handle w)));
                   (Sweep (search_config pf p w), Ended (ending pf (search_handle w))) ] /\
     ending pf (run_handle w) <> Failed /\
     ending pf (search_handle w) <> Failed) /\
  (forall n, n <> cluster_name p -> clusters (world_of r) !! n = clusters w !! n) /\
  (forall n, n <> "torchvision_best_model" ->
     registry (world_of r) !! n = registry w !! n) /\
  (clusters (world_of r) = clusters w
   \/ exists c, CreateCompute (cluster_name p) c ∈ log_of r) /\
  (GetAuth ∈ log_of r -> dotenv (world_of r) = dotenv (named pf p w)) /\
  (forall c s, CreateCompute (cluster_name p) c ∈ log_of r -> Submit s ∈ log_of r ->
     clusters (world_of r) !! cluster_name p
     = Some {| cluster_config := c; provisioned := true |}) /\
  (forall c, Submit (Sweep c) ∈ log_of r ->
     runs (world_of r) !! run_handle w
     = Some (Job (single_estimator pf p w), Ended (ending pf (run_handle w))) /\
     ending pf (run_handle w) <> Failed) /\
  (GetBestRun (search_handle w) ∈ log_of r ->
     runs (world_of r) !! search_handle w
     = Some (Sweep (search_config pf p w), Ended (ending pf (search_handle w))) /\
     ending pf (search_handle w) <> Failed).

(** The estimator behind a submission: the job's own, or the base job of
    the search. *)
Definition estimator_of (s : Submission) : Estimator :=
  match s with
  | Job e => e
  | Sweep c => hd_estimator c
  end.

(** [k in d], for a list of names. *)
Definition name_in (l : list string) (k : string) : bool := existsb (String.eqb k) l.

(** A platform on which authentication is refused. *)
Definition unauthenticated : Platform :=
  {| fault := fun _ e => match e with
                         | GetAuth => Some (ServiceError "AuthenticationException")
                         | _ => None
                         end;
     written := fun k v env => <[k := v]> env;
     default_datastore := "workspaceblobstore";
     ending := fun _ => Completed;
     best_child := fun _ => Some 7%nat |}.

(** ** A strict reading of blocking, and a file without a final newline *)

Definition starts (e : Event) : bool :=
  match e with CreateCompute _ _ | Submit _ => true | _ => false end.

Definition is_wait (e : Event) : bool :=
  match e with WaitCompute _ | WaitRun _ _ => true | _ => false end.

(** In [l], the call that follows one that starts remote work is a wait. *)
Fixpoint blocks_at_once (l : list Event) : bool :=
  match l with
  | [] => true
  | e :: l' =>
      (if starts e
       then match l' with [] => true | e' :: _ => is_wait e' end
       else true)
      && blocks_at_once l'
  end.

Definition dquote : string := String "034"%char EmptyString.

(** python-dotenv up to 0.19.0 on a file whose last line is the entry of
    [last] and has no final newline: [set_key] copies the lines as they
    are, puts the new entry in the place of the lines of its key and, when
    there is none, appends it; the appended text then lands on that last
    line, whose value it lengthens, and the key itself is not stored. *)
Definition glued (last k v : string) (env : gmap string string) : gmap string string :=
  match env !! k with
  | Some _ => <[k := v]> env
  | None =>
      alter (fun v0 =>
               String.append v0
                 (String.append k
                    (String.append "=" (String.append dquote (String.append v dquote)))))
            last env
  end.

(** The quiet platform, but for a [.env] file that ends in the entry of
    image_name without a newline. *)
Definition open_ended : Platform :=
  {| fault := fun _ _ => None;
     written := glued "image_name";
     default_datastore := "workspaceblobstore";
     ending := fun _ => Completed;
     best_child := fun _ => Some 7%nat |}.

(** A platform on which the lookup of the cluster fails with
    [ComputeTargetException] although the cluster is there. *)
Definition failing_lookup : Platform :=
  {| fault := fun _ e => match e with
                         | LookupCompute _ => Some ComputeTargetException
                         | _ => None
                         end;
     written := fun k v env => <[k := v]> env;
     default_datastore := "workspaceblobstore";
     ending := fun _ => Completed;
     best_child := fun _ => Some 7%nat |}.

(** * Properties *)

(** ** Dictionaries and search spaces *)

Lemma existsb_eqb_elem_of (s : string) (l : list string) :
  existsb (String.eqb s) l = true -> s ∈ l.
Proof.
  induction l as [|x l IH]; cbn; [discriminate|].
  intros [Hx|Hl]%orb_true_iff.
  - apply String.eqb_eq in Hx as ->. apply list_elem_of_here.
  - apply list_elem_of_further, IH, Hl.
Qed.

Lemma admits_uniform lo hi v :
  admits (uniform lo hi) v = true ->
  exists x, v = VFloat x /\ (lo <=? x)%float = true /\ (x <=? hi)%float = true.
Proof.
  destruct v as [d|n|x|s]; cbn; try discriminate.
  intros [Hlo Hhi]%andb_true_iff. eauto.
Qed.

Lemma admits_choice opts v :
  admits (choice opts) v = true -> exists s, v = VStr s /\ s ∈ opts.
Proof.
  destruct v as [d|n|x|s]; cbn; try discriminate.
  intros H%existsb_eqb_elem_of. eauto.
Qed.

Lemma dict_get_Some_key {V} (k : string) (d : dict V) (v : V) :
  dict_get k d = Some v -> k ∈ keys d.
Proof.
  induction d as [|[k' v'] d IH]; cbn; [discriminate|].
  destruct (String.eqb_spec k k') as [->|Hne].
  - intros _. apply list_elem_of_here.
  - intros H. apply list_elem_of_further, IH, H.
Qed.

Lemma drawn_from_declared space a k d :
  drawn_from space a = true -> (k, d) ∈ space ->
  exists v, dict_get k a = Some v /\ admits d v = true.
Proof.
  unfold drawn_from. intros [Hall _]%andb_true_iff Hin.
  rewrite forallb_forall in Hall.
  apply list_elem_of_In, Hall in Hin. cbn in Hin.
  destruct (dict_get k a) as [v|]; [eauto | discriminate].
Qed.

Lemma drawn_from_no_other space a k :
  drawn_from space a = true -> k ∈ keys a -> k ∈ keys space.
Proof.
  unfold drawn_from. intros [_ Hall]%andb_true_iff Hin.
  rewrite forallb_forall in Hall.
  apply list_elem_of_fmap in Hin as [[k' v] [-> Hin]].
  apply list_elem_of_In, Hall in Hin. cbn in Hin.
  destruct (dict_get k' space) as [d|] eqn:Hd; [|discriminate].
  eapply dict_get_Some_key, Hd.
Qed.

(** ** Executions of the notebook *)

Lemma length_runs_waited (rs : list (Submission * RunStatus)) f i x :
  length (alter f i (rs ++ [x])%list) = S (length rs).
Proof. rewrite length_alter, length_app. cbn. lia. Qed.

Ltac unfold_ops E :=
  unfold exec, notebook, resolve_compute, find_dotenv, set_key, get_key, get_auth,
    Workspace_from_config, Experiment, makedirs, copy, get_default_datastore, upload,
    ComputeTarget, ComputeTarget_create, compute_wait_for_completion, get_status,
    submit, show_details, get_details, wait_for_completion,
    get_best_run_by_primary_metric, on_run, get_metrics, register_model,
    try_except, call, emit, modify, get_world, raise, mbind, M_bind, mret, M_ret in E.

(** One step of the execution recorded in [E]: a case distinction on what
    the next call, or the next test on the world, yields. *)
Ltac step E :=
  lazymatch type of E with
  | context [is_ComputeTargetException ?e] => destruct e
  | context [fault ?pf ?h ?e] => destruct (fault pf h e)
  | context [match dotenv ?w with _ => _ end] => destruct (dotenv w) eqn:?
  | context [match clusters ?w !! ?k with _ => _ end] => destruct (clusters w !! k) eqn:?
  | context [match ending ?pf ?r with _ => _ end] => destruct (ending pf r) eqn:?
  | context [match best_child ?pf ?r with _ => _ end] => destruct (best_child pf r) eqn:?
  end; cbn in E.

Ltac unfold_script :=
  unfold script, registering, searching, training, provisioning, preparation,
    search_handle, run_handle, search_config, single_estimator, acr, named, env_lookup,
    provisioning_configuration.

Ltac close_prefix :=
  solve [ exists true; cbn; eexists; reflexivity
        | exists false; cbn; eexists; reflexivity ].

Ltac close_full :=
  solve [ exists true; reflexivity | exists false; reflexivity ].

Lemma notebook_summary pf p w : summary pf p w (exec (notebook pf p) w).
Proof.
  remember (exec (notebook pf p) w) as r eqn:E.
  unfold_ops E; cbn in E.
  repeat step E.
  all: rewrite ?length_runs_waited in *.
  all: subst r; unfold summary, log_of, result_of, world_of; unfold_script; cbn;
    repeat match goal with H : best_child _ _ = _ |- _ => rewrite H; clear H end.
  all: (split; [close_prefix |]).
  all: (split; [ intros m Hm; try discriminate
               | intros e' He'; try discriminate; try reflexivity ]).
  all: injection Hm as <-;
    (split; [close_full | split; [eexists; split; reflexivity | split; [reflexivity|]]]).
  all: match goal with H : dotenv _ = Some _ |- _ => rewrite H end;
    eexists; split; reflexivity.
Qed.

Lemma notebook_log_prefix pf p w :
  exists created, log_of (exec (notebook pf p) w) `prefix_of` script pf p w created.
Proof. apply notebook_summary. Qed.

Lemma logged_in_script pf p w e :
  e ∈ log_of (exec (notebook pf p) w) -> exists created, e ∈ script pf p w created.
Proof.
  intros He. destruct (notebook_log_prefix pf p w) as [created [k Hk]].
  exists created. rewrite Hk. apply elem_of_app. by left.
Qed.

(** Going through the elements of an explicit list. *)
Ltac in_cases H :=
  repeat (apply elem_of_cons in H as [H|H]; [try discriminate H|]);
  try (apply elem_of_nil in H; contradiction).

Lemma script_cases pf p w created e :
  e ∈ script pf p w created ->
  e ∈ preparation p \/ e ∈ provisioning p created \/ e ∈ training pf p w
  \/ e ∈ searching pf p w \/ e ∈ registering pf w.
Proof. unfold script. rewrite !elem_of_app. tauto. Qed.

Lemma provisioning_cases p created e :
  e ∈ provisioning p created ->
  e ∈ [ LookupCompute (cluster_name p);
        Print "Creating a new compute target...";
        CreateCompute (cluster_name p) {| vm_size := "STANDARD_NC6"; max_nodes := 8 |};
        WaitCompute (cluster_name p);
        Print "Found existing compute target.";
        GetStatus (cluster_name p) ].
Proof.
  unfold provisioning. destruct created; cbn; intros H; in_cases H; subst e;
    repeat constructor.
Qed.

Lemma registering_cases pf w e :
  e ∈ registering pf w ->
  exists best_run, best_child pf (search_handle w) = Some best_run /\
    e ∈ [ GetMetrics best_run; GetDetails best_run;
          RegisterModel best_run "torchvision_best_model" "/outputs/model_latest.pth" ].
Proof.
  unfold registering. destruct (best_child pf (search_handle w)) as [b|]; [eauto|].
  intros H. by apply elem_of_nil in H.
Qed.

(** The only job the notebook submits is the single training run, and the
    only search the one over [search_config]. *)
Lemma submitted_job pf p w e :
  Submit (Job e) ∈ log_of (exec (notebook pf p) w) -> e = single_estimator pf p w.
Proof.
  intros [created H]%logged_in_script.
  apply script_cases in H as [H|[H|[H|[H|H]]]].
  - unfold preparation in H. in_cases H.
  - apply provisioning_cases in H. in_cases H.
  - unfold training in H. in_cases H. by injection H.
  - unfold searching in H. in_cases H.
  - apply registering_cases in H as [b [_ H]]. in_cases H.
Qed.

Lemma submitted_sweep pf p w c :
  Submit (Sweep c) ∈ log_of (exec (notebook pf p) w) -> c = search_config pf p w.
Proof.
  intros [created H]%logged_in_script.
  apply script_cases in H as [H|[H|[H|[H|H]]]].
  - unfold preparation in H. in_cases H.
  - apply provisioning_cases in H. in_cases H.
  - unfold training in H. in_cases H.
  - unfold searching in H. in_cases H. by injection H.
  - apply registering_cases in H as [b [_ H]]. in_cases H.
Qed.

(** *** Effects on the workspace *)

Lemma alter_last {A} (f : A -> A) (l : list A) (x : A) :
  alter f (length l) (l ++ [x]) = l ++ [f x].
Proof. by rewrite <- (Nat.add_0_r (length l)), alter_app_r. Qed.

Lemma alter_second {A} (f : A -> A) (l : list A) (x y : A) :
  alter f (S (length l)) (l ++ [x; y]) = l ++ [x; f y].
Proof. by rewrite <- (Nat.add_1_r (length l)), alter_app_r. Qed.

Lemma lookup_second {A} (l : list A) (x y : A) : (l ++ [x; y]) !! S (length l) = Some y.
Proof.
  change (l ++ [x; y]) with (l ++ [x] ++ [y]). rewrite app_assoc.
  apply list_lookup_middle. rewrite length_app. cbn. lia.
Qed.

(** As [step], but what the lookup's call yields is kept. *)
Ltac step_lookup E :=
  lazymatch type of E with
  | context [is_ComputeTargetException ?e] => destruct e
  | context [fault ?pf ?h (LookupCompute ?n)] => destruct (fault pf h (LookupCompute n)) eqn:?
  | context [fault ?pf ?h ?e] => destruct (fault pf h e)
  | context [match dotenv ?w with _ => _ end] => destruct (dotenv w) eqn:?
  | context [match clusters ?w !! ?k with _ => _ end] => destruct (clusters w !! k) eqn:?
  | context [match ending ?pf ?r with _ => _ end] => destruct (ending pf r) eqn:?
  | context [match best_child ?pf ?r with _ => _ end] => destruct (best_child pf r) eqn:?
  end; cbn in E.

Lemma notebook_effects pf p w : effects pf p w (exec (notebook pf p) w).
Proof.
  remember (exec (notebook pf p) w) as r eqn:E.
  unfold_ops E; cbn in E.
  repeat step_lookup E.
  all: rewrite ?length_runs_waited in *.
  all: subst r; unfold effects, log_of, result_of, world_of; unfold_script; cbn.
  all: (split; [intros ? ? Hc;
              first [ by left | by right | in_cases Hc ] |]).
  all: (split; [intros ? Hs;
              first [ by rewrite lookup_alter_eq, lookup_insert_eq
                    | by rewrite lookup_insert_eq
                    | match goal with H : clusters _ !! _ = Some _ |- _ => by rewrite H end
                    | in_cases Hs ] |]).
  all: rewrite ?alter_last, <- ?app_assoc; cbn [app fst];
    rewrite ?alter_second; cbn [fst];
    repeat match goal with H : ending _ _ = _ |- _ => rewrite H; clear H end.
  all: (split;
    [ first [ exists []; split; [symmetry; apply app_nil_r | apply prefix_nil]
            | eexists [_]; split; [reflexivity | apply prefix_cons, prefix_nil]
            | eexists [_; _]; split; [reflexivity | reflexivity] ]
    | ]).
  all: (split; [intros m Hm; try discriminate Hm;
                     repeat split; first [ reflexivity | discriminate ] |]).
  all: (split; [intros ? Hn; by rewrite ?lookup_alter_ne, ?lookup_insert_ne by done |]).
  all: (split; [intros ? Hn; by rewrite ?lookup_insert_ne by done |]).
  all: (split;
    [ first [ left; reflexivity
            | right; eexists;
              repeat first [ apply list_elem_of_here | apply list_elem_of_further ] ] |]).
  all: (split; [intros Hauth; first [ reflexivity | in_cases Hauth ] |]).
  all: (split;
    [ intros ? ? Hc Hs;
      first [ solve [in_cases Hs]
            | solve [in_cases Hc]
            | in_cases Hc; injection Hc as <-;
              by rewrite lookup_alter_eq, lookup_insert_eq ] |]).
  all: (split;
    [ intros ? Hs;
      first [ solve [in_cases Hs]
            | split; [by apply list_lookup_middle | discriminate] ] |]).
  all: intros Hbest;
    first [ solve [in_cases Hbest]
          | split; [apply lookup_second | discriminate] ].
Qed.

(** *** What failed, if anything *)

Lemma all_survive_app pf h l k :
  all_survive pf h (l ++ k) = all_survive pf h l && all_survive pf (h ++ l) k.
Proof.
  revert h. induction l as [|e l IH]; intros h; cbn.
  - by rewrite app_nil_r.
  - by rewrite IH, <- app_assoc, andb_assoc.
Qed.

Lemma all_survive_snoc pf l e :
  all_survive pf [] l = true -> survives pf l e = true ->
  all_survive pf [] (l ++ [e]) = true.
Proof. intros Hl He. rewrite all_survive_app. cbn. by rewrite Hl, He. Qed.

(** The log of the execution recorded in [E] is kept as it grows, one call
    after the other, and [Hs] says that its calls let the script go on;
    [sync] brings [Hs] up with the log [h], using what is known of the
    calls that [Hs] has not yet seen. *)
Ltac sync Hs h :=
  lazymatch type of Hs with
  | all_survive _ [] h = true => idtac
  | all_survive ?pf [] _ = true =>
      lazymatch h with
      | ?h' ++ [?e] =>
          sync Hs h';
          apply (all_survive_snoc pf h' e) in Hs;
          [| try reflexivity;
             match goal with
             | Hf : fault pf h' e = _ |- _ => unfold survives; rewrite Hf; reflexivity
             end ];
          try match goal with
              | Hf : fault pf h' e = _ |- _ => clear Hf
              end
      end
  end.

Ltac step_sync E Hs :=
  lazymatch type of E with
  | context [is_ComputeTargetException ?e] => destruct e
  | context [fault ?pf ?h ?e] => sync Hs h; destruct (fault pf h e) eqn:?
  | context [match dotenv ?w with _ => _ end] => destruct (dotenv w) eqn:?
  | context [match clusters ?w !! ?k with _ => _ end] => destruct (clusters w !! k) eqn:?
  | context [match ending ?pf ?r with _ => _ end] => destruct (ending pf r) eqn:?
  | context [match best_child ?pf ?r with _ => _ end] => destruct (best_child pf r) eqn:?
  end; cbn -[app] in E.

Lemma notebook_account pf p w : account pf w (exec (notebook pf p) w).
Proof.
  remember (exec (notebook pf p) w) as r eqn:E.
  assert (Hs : all_survive pf [] [] = true) by reflexivity.
  unfold_ops E; cbn -[app] in E.
  repeat step_sync E Hs.
  all: subst r; unfold account, log_of, result_of, world_of; cbn -[app];
    rewrite removelast_last, last_snoc;
    lazymatch goal with
    | |- all_survive _ [] ?h = true /\ _ => sync Hs h
    end;
    (split; [exact Hs|]).
  all: (split;
    [ intros m Hm; first [ discriminate Hm | idtac ]
    | intros x Hx; first [ discriminate Hx | injection Hx as <- ] ]).
  all: try (eexists; split; [reflexivity|]; unfold cause;
    first [ left; assumption
          | right; split; [assumption|];
            first [ left; by repeat split
                  | right; left; by eauto
                  | right; right; by eauto ] ]).
  all: lazymatch goal with
    | |- all_survive _ [] ?h = true => sync Hs h; exact Hs
    end.
Qed.

(** ** The requests the notebook submits *)

(** C1. Whatever assignment is drawn from the search space the notebook
    submits: its learning_rate is a float in [0.0005, 0.005], its
    rpn_nms_thresh one in [0.3, 0.7], its anchor_sizes one of the six preset
    strings, its anchor_aspect_ratios one of the four, and it names no
    other parameter. *)
Theorem sampled_assignment_within_space pf p w c a :
  Submit (Sweep c) ∈ log_of (exec (notebook pf p) w) ->
  drawn_from (parameter_space (hyperparameter_sampling c)) a = true ->
  (exists x, dict_get "learning_rate" a = Some (VFloat x)
     /\ (0.0005 <=? x)%float = true /\ (x <=? 0.005)%float = true) /\
  (exists x, dict_get "rpn_nms_thresh" a = Some (VFloat x)
     /\ (0.3 <=? x)%float = true /\ (x <=? 0.7)%float = true) /\
  (exists s, dict_get "anchor_sizes" a = Some (VStr s)
     /\ s ∈ [ "16"; "16,32"; "16,32,64"; "16,32,64,128";
              "16,32,64,128,256"; "16,32,64,128,256,512" ]) /\
  (exists s, dict_get "anchor_aspect_ratios" a = Some (VStr s)
     /\ s ∈ [ "0.25"; "0.25,0.5"; "0.25,0.5,1.0"; "0.25,0.5,1.0,2.0" ]) /\
  (forall k, k ∈ keys a ->
     k ∈ [ "learning_rate"; "rpn_nms_thresh"; "anchor_sizes"; "anchor_aspect_ratios" ]).
Proof.
  intros -> %submitted_sweep Ha. cbn in Ha.
  repeat split.
  - destruct (drawn_from_declared _ _ "learning_rate" _ Ha ltac:(repeat constructor))
      as [v [Hv (x & -> & Hx)%admits_uniform]]. eauto.
  - destruct (drawn_from_declared _ _ "rpn_nms_thresh" _ Ha ltac:(repeat constructor))
      as [v [Hv (x & -> & Hx)%admits_uniform]]. eauto.
  - destruct (drawn_from_declared _ _ "anchor_sizes" _ Ha ltac:(repeat constructor))
      as [v [Hv (s & -> & Hs)%admits_choice]]. eauto.
  - destruct (drawn_from_declared _ _ "anchor_aspect_ratios" _ Ha ltac:(repeat constructor))
      as [v [Hv (s & -> & Hs)%admits_choice]]. eauto.
  - intros k Hk. apply (drawn_from_no_other _ _ _ Ha Hk).
Qed.

Lemma sampled_assignment_within_space_witness :
  Submit (Sweep (search_config quiet default_params fresh_world))
    ∈ log_of (exec (notebook quiet default_params) fresh_world) /\
  drawn_from (parameter_space Search.param_sampling) sample_assignment = true /\
  (exists s, dict_get "anchor_sizes" sample_assignment = Some (VStr s)
     /\ s ∈ [ "16"; "16,32"; "16,32,64"; "16,32,64,128";
              "16,32,64,128,256"; "16,32,64,128,256,512" ]).
Proof.
  assert (Hlog : Submit (Sweep (search_config quiet default_params fresh_world))
                   ∈ log_of (exec (notebook quiet default_params) fresh_world))
    by (vm_compute; repeat constructor).
  assert (Ha : drawn_from (parameter_space Search.param_sampling) sample_assignment = true)
    by (vm_compute; reflexivity).
  split; [exact Hlog|]. split; [exact Ha|].
  apply (sampled_assignment_within_space quiet default_params fresh_world _
           sample_assignment Hlog Ha).
Defined.

(** C2. The parameter mapping of the single training submission: exactly
    nine entries, the flags of data_path, workers, learning_rate, epochs,
    anchor_sizes, anchor_aspect_ratios, rpn_nms_thresh, box_nms_thresh and
    box_score_thresh, each once, with the literal values of the notebook
    (epochs is [num_epochs], data_path the mounted default datastore). *)
Theorem single_run_parameters pf p w e :
  Submit (Job e) ∈ log_of (exec (notebook pf p) w) ->
  script_params e =
    [ ("--data_path", VRef (as_mount (default_datastore pf)));
      ("--workers", VInt 8);
      ("--learning_rate", VFloat 0.005);
      ("--epochs", VInt (num_epochs p));
      ("--anchor_sizes", VStr "16,32,64,128,256,512");
      ("--anchor_aspect_ratios", VStr "0.25,0.5,1.0,2.0");
      ("--rpn_nms_thresh", VFloat 0.5);
      ("--box_nms_thresh", VFloat 0.3);
      ("--box_score_thresh", VFloat 0.10) ] /\
  keys (script_params e) =
    map flag [ "data_path"; "workers"; "learning_rate"; "epochs"; "anchor_sizes";
               "anchor_aspect_ratios"; "rpn_nms_thresh"; "box_nms_thresh";
               "box_score_thresh" ] /\
  NoDup (keys (script_params e)) /\
  length (script_params e) = 9%nat.
Proof.
  intros -> %submitted_job. cbn.
  repeat split.
  repeat (apply NoDup_cons; split;
          [intros H; in_cases H|]).
  apply NoDup_nil_2.
Qed.

Lemma single_run_parameters_witness :
  Submit (Job (single_estimator quiet default_params fresh_world))
    ∈ log_of (exec (notebook quiet default_params) fresh_world) /\
  keys (script_params (single_estimator quiet default_params fresh_world)) =
    [ "--data_path"; "--workers"; "--learning_rate"; "--epochs"; "--anchor_sizes";
      "--anchor_aspect_ratios"; "--rpn_nms_thresh"; "--box_nms_thresh";
      "--box_score_thresh" ].
Proof.
  assert (Hlog : Submit (Job (single_estimator quiet default_params fresh_world))
                   ∈ log_of (exec (notebook quiet default_params) fresh_world))
    by (vm_compute; repeat constructor).
  split; [exact Hlog|].
  apply (single_run_parameters quiet default_params fresh_world _ Hlog).
Defined.

(** C4. The early-termination policy of the search the notebook submits
    carries slack_factor 0.15, evaluation_interval 2 and delay_evaluation 2
    (and no slack amount). *)
Theorem early_termination_policy_values pf p w c :
  Submit (Sweep c) ∈ log_of (exec (notebook pf p) w) ->
  slack_factor (policy c) = Some 0.15%float /\
  evaluation_interval (policy c) = 2 /\
  delay_evaluation (policy c) = 2 /\
  slack_amount (policy c) = None.
Proof. intros -> %submitted_sweep. by cbn. Qed.

Lemma early_termination_policy_values_witness :
  Submit (Sweep (search_config quiet default_params fresh_world))
    ∈ log_of (exec (notebook quiet default_params) fresh_world) /\
  evaluation_interval (policy (search_config quiet default_params fresh_world)) = 2.
Proof.
  assert (Hlog : Submit (Sweep (search_config quiet default_params fresh_world))
                   ∈ log_of (exec (notebook quiet default_params) fresh_world))
    by (vm_compute; repeat constructor).
  split; [exact Hlog|].
  apply (early_termination_policy_values quiet default_params fresh_world _ Hlog).
Defined.

(** C5. The search request is built with primary metric "mAP@IoU=0.50",
    goal maximize, four concurrent runs at most and as many runs in total as
    the parameter cell says. *)
Theorem search_request_limits pf p w c :
  Submit (Sweep c) ∈ log_of (exec (notebook pf p) w) ->
  primary_metric_name c = "mAP@IoU=0.50" /\
  primary_metric_goal c = MAXIMIZE /\
  max_concurrent_runs c = 4 /\
  hd_max_total_runs c = max_total_runs p.
Proof. intros -> %submitted_sweep. by cbn. Qed.

Lemma search_request_limits_witness :
  Submit (Sweep (search_config quiet default_params fresh_world))
    ∈ log_of (exec (notebook quiet default_params) fresh_world) /\
  hd_max_total_runs (search_config quiet default_params fresh_world) = 1.
Proof.
  assert (Hlog : Submit (Sweep (search_config quiet default_params fresh_world))
                   ∈ log_of (exec (notebook quiet default_params) fresh_world))
    by (vm_compute; repeat constructor).
  split; [exact Hlog|].
  apply (search_request_limits quiet default_params fresh_world _ Hlog).
Defined.

(** C8. The base job of the search fixes exactly five parameters
    (data_path, workers = 8, epochs = num_epochs, box_nms_thresh = 0.3,
    box_score_thresh = 0.10); the four sampled names are none of them; and
    fixed and sampled names together are the nine parameters of the single
    training submission. *)
Theorem fixed_and_sampled_parameters pf p w e c :
  Submit (Job e) ∈ log_of (exec (notebook pf p) w) ->
  Submit (Sweep c) ∈ log_of (exec (notebook pf p) w) ->
  let fixed := script_params (hd_estimator c) in
  let sampled := keys (parameter_space (hyperparameter_sampling c)) in
  fixed =
    [ ("--data_path", VRef (as_mount (default_datastore pf)));
      ("--workers", VInt 8);
      ("--epochs", VInt (num_epochs p));
      ("--box_nms_thresh", VFloat 0.3);
      ("--box_score_thresh", VFloat 0.10) ] /\
  map param_name (keys fixed) =
    [ "data_path"; "workers"; "epochs"; "box_nms_thresh"; "box_score_thresh" ] /\
  sampled = [ "learning_rate"; "rpn_nms_thresh"; "anchor_sizes"; "anchor_aspect_ratios" ] /\
  (forall k, k ∈ sampled -> (k ∉ map param_name (keys fixed)) /\ (k ∉ keys fixed)) /\
  (map param_name (keys fixed) ++ sampled)%list
    ≡ₚ (map param_name (keys (script_params e))) /\
  (keys fixed ++ map flag sampled)%list ≡ₚ (keys (script_params e)).
Proof.
  intros -> %submitted_job -> %submitted_sweep. cbn.
  repeat split.
  - intros H'. in_cases H; subst k; in_cases H'.
  - intros H'. in_cases H; subst k; in_cases H'.
  - by apply (bool_decide_unpack _).
  - by apply (bool_decide_unpack _).
Qed.

Lemma fixed_and_sampled_parameters_witness :
  Submit (Job (single_estimator quiet default_params fresh_world))
    ∈ log_of (exec (notebook quiet default_params) fresh_world) /\
  Submit (Sweep (search_config quiet default_params fresh_world))
    ∈ log_of (exec (notebook quiet default_params) fresh_world) /\
  keys (parameter_space (hyperparameter_sampling
          (search_config quiet default_params fresh_world))) =
    [ "learning_rate"; "rpn_nms_thresh"; "anchor_sizes"; "anchor_aspect_ratios" ].
Proof.
  assert (Hjob : Submit (Job (single_estimator quiet default_params fresh_world))
                   ∈ log_of (exec (notebook quiet default_params) fresh_world))
    by (vm_compute; repeat constructor).
  assert (Hsweep : Submit (Sweep (search_config quiet default_params fresh_world))
                   ∈ log_of (exec (notebook quiet default_params) fresh_world))
    by (vm_compute; repeat constructor).
  split; [exact Hjob|]. split; [exact Hsweep|].
  apply (fixed_and_sampled_parameters quiet default_params fresh_world _ _ Hjob Hsweep).
Defined.

(** C9. What the single training submission fixes for a parameter the
    search samples lies in the search's space: learning_rate = 0.005 is the
    upper end of [0.0005, 0.005], rpn_nms_thresh = 0.5 lies in [0.3, 0.7],
    and the anchor sizes and aspect ratios are among the choices. *)
Theorem single_run_within_search_space pf p w e c :
  Submit (Job e) ∈ log_of (exec (notebook pf p) w) ->
  Submit (Sweep c) ∈ log_of (exec (notebook pf p) w) ->
  let space := parameter_space (hyperparameter_sampling c) in
  (forall k d, (k, d) ∈ space ->
     exists v, dict_get (flag k) (script_params e) = Some v /\ admits d v = true) /\
  (exists lo, dict_get "learning_rate" space = Some (uniform lo 0.005)
     /\ dict_get "--learning_rate" (script_params e) = Some (VFloat 0.005)) /\
  (dict_get "rpn_nms_thresh" space = Some (uniform 0.3 0.7)
     /\ dict_get "--rpn_nms_thresh" (script_params e) = Some (VFloat 0.5)
     /\ (0.3 <=? 0.5)%float = true /\ (0.5 <=? 0.7)%float = true) /\
  (exists opts, dict_get "anchor_sizes" space = Some (choice opts)
     /\ dict_get "--anchor_sizes" (script_params e) = Some (VStr "16,32,64,128,256,512")
     /\ "16,32,64,128,256,512" ∈ opts /\ length opts = 6%nat) /\
  (exists opts, dict_get "anchor_aspect_ratios" space = Some (choice opts)
     /\ dict_get "--anchor_aspect_ratios" (script_params e) = Some (VStr "0.25,0.5,1.0,2.0")
     /\ "0.25,0.5,1.0,2.0" ∈ opts /\ length opts = 4%nat).
Proof.
  intros -> %submitted_job -> %submitted_sweep. cbn.
  split; [|split; [|split; [|split]]].
  - intros k d H. in_cases H; injection H as -> ->; eexists; (split; [reflexivity|]);
      reflexivity.
  - eexists. split; reflexivity.
  - repeat split.
  - eexists. split; [reflexivity|]. split; [reflexivity|]. split; [|reflexivity].
    repeat constructor.
  - eexists. split; [reflexivity|]. split; [reflexivity|]. split; [|reflexivity].
    repeat constructor.
Qed.

Lemma single_run_within_search_space_witness :
  Submit (Job (single_estimator quiet default_params fresh_world))
    ∈ log_of (exec (notebook quiet default_params) fresh_world) /\
  Submit (Sweep (search_config quiet default_params fresh_world))
    ∈ log_of (exec (notebook quiet default_params) fresh_world) /\
  (exists lo, dict_get "learning_rate" (parameter_space Search.param_sampling)
                = Some (uniform lo 0.005)
     /\ dict_get "--learning_rate"
          (script_params (single_estimator quiet default_params fresh_world))
        = Some (VFloat 0.005)).
Proof.
  assert (Hjob : Submit (Job (single_estimator quiet default_params fresh_world))
                   ∈ log_of (exec (notebook quiet default_params) fresh_world))
    by (vm_compute; repeat constructor).
  assert (Hsweep : Submit (Sweep (search_config quiet default_params fresh_world))
                   ∈ log_of (exec (notebook quiet default_params) fresh_world))
    by (vm_compute; repeat constructor).
  split; [exact Hjob|]. split; [exact Hsweep|].
  apply (single_run_within_search_space quiet default_params fresh_world _ _ Hjob Hsweep).
Defined.

(** ** Compute resolution *)



(** ** Sequencing *)

Lemma sequential_app m l k :
  sequential m (l ++ k) = true -> sequential m l = true.
Proof.
  revert m. induction l as [|e l IH]; intros m; cbn; [done|].
  destruct (observe m e) as [m'|]; [apply IH | done].
Qed.

Lemma sequential_prefix m l1 l2 :
  l1 `prefix_of` l2 -> sequential m l2 = true -> sequential m l1 = true.
Proof. intros [k ->]. apply sequential_app. Qed.

Lemma preceded_app a b seen l k :
  preceded a b seen (l ++ k) = true -> preceded a b seen l = true.
Proof.
  revert seen. induction l as [|e l IH]; intros seen; cbn; [done|].
  intros [H1 H2]%andb_true_iff. apply andb_true_iff. split; [done|].
  by apply IH.
Qed.

Lemma preceded_prefix a b seen l1 l2 :
  l1 `prefix_of` l2 -> preceded a b seen l2 = true -> preceded a b seen l1 = true.
Proof. intros [k ->]. apply preceded_app. Qed.

Lemma preceded_split a b seen l l1 e l2 :
  preceded a b seen l = true -> l = l1 ++ e :: l2 -> b e = true ->
  seen = true \/ exists e', e' ∈ l1 /\ a e' = true.
Proof.
  revert seen l. induction l1 as [|x l1 IH]; intros seen l Hl -> Hb; cbn in Hl.
  - rewrite Hb in Hl. apply andb_true_iff in Hl as [-> _]. by left.
  - apply andb_true_iff in Hl as [_ Hl].
    destruct (IH _ _ Hl eq_refl Hb) as [[->|Hx]%orb_true_iff|(e' & He' & Ha)].
    + by left.
    + right. exists x. split; [apply list_elem_of_here | done].
    + right. exists e'. split; [by apply list_elem_of_further | done].
Qed.

Lemma is_wait_run_spec run post e :
  is_wait_run run post e = true -> e = WaitRun run post.
Proof.
  destruct e; cbn; try discriminate.
  intros [Hr Hb]%andb_true_iff.
  apply Nat.eqb_eq in Hr as ->. apply Bool.eqb_prop in Hb as ->. done.
Qed.

Lemma is_submit_job_spec e : is_submit_job e = true -> exists est, e = Submit (Job est).
Proof. destruct e as [| | | | | | | | | | | | | | |[est|c]| | | | | |]; cbn; try discriminate. eauto. Qed.

Ltac run_monitor :=
  repeat (cbn; rewrite ?Nat.eqb_refl, ?String.eqb_refl, ?orb_true_r); reflexivity.

Lemma script_sequential pf p w created :
  sequential (monitor0 w) (script pf p w created) = true.
Proof.
  unfold script, registering, search_handle.
  destruct created, (best_child pf (S (length (runs w)))); run_monitor.
Qed.

Lemma script_waits_before_search pf p w created :
  preceded (is_wait_run (run_handle w) false) is_submit_sweep false
    (script pf p w created) = true.
Proof.
  unfold script, registering, search_handle.
  destruct created, (best_child pf (S (length (runs w)))); run_monitor.
Qed.

Lemma script_submits_before_search pf p w created :
  preceded is_submit_job is_submit_sweep false (script pf p w created) = true.
Proof.
  unfold script, registering, search_handle.
  destruct created, (best_child pf (S (length (runs w)))); run_monitor.
Qed.

Lemma script_waits_before_best pf p w created :
  preceded (is_wait_run (search_handle w) true) uses_best_run false
    (script pf p w created) = true.
Proof.
  unfold script, registering, search_handle.
  destruct created, (best_child pf (S (length (runs w)))); run_monitor.
Qed.

(** A wait that returns leaves the run ended. *)
Lemma wait_for_completion_ends pf run post s s' sub st :
  wait_for_completion pf run post s = (Ok tt, s') ->
  runs (fst s) !! run = Some (sub, st) ->
  runs (fst s') !! run = Some (sub, Ended (ending pf run)) /\ ending pf run <> Failed.
Proof.
  unfold wait_for_completion, call, modify, raise, mbind, M_bind, mret, M_ret.
  destruct s as [w h]. cbn.
  destruct (fault pf h (WaitRun run post)); cbn; [discriminate|].
  destruct (ending pf run) eqn:Hend; cbn; intros [= <-] Hrun; cbn;
    rewrite ?list_lookup_alter_eq, ?Hrun; done.
Qed.

(** A wait on a cluster that returns leaves the cluster provisioned. *)
Lemma compute_wait_for_completion_provisions pf name s s' c :
  compute_wait_for_completion pf name s = (Ok tt, s') ->
  clusters (fst s) !! name = Some c ->
  clusters (fst s') !! name
  = Some {| cluster_config := cluster_config c; provisioned := true |}.
Proof.
  unfold compute_wait_for_completion, call, modify, mbind, M_bind.
  destruct s as [w h]. cbn.
  destruct (fault pf h (WaitCompute name)); cbn; [discriminate|].
  intros [= <-] Hc. cbn. by rewrite lookup_alter_eq, Hc.
Qed.

(** The call that follows the submission of the single training run is not
    the wait on it: the notebook first shows the run's widget and asks for
    its details. *)
Lemma wait_is_not_the_next_call :
  blocks_at_once (log_of (exec (notebook quiet default_params) fresh_world)) = false /\
  log_of (exec (notebook quiet default_params) fresh_world) !! 26%nat
  = Some (Submit (Job (single_estimator quiet default_params fresh_world))) /\
  log_of (exec (notebook quiet default_params) fresh_world) !! 27%nat
  = Some (ShowDetails 0) /\
  log_of (exec (notebook quiet default_params) fresh_world) !! 28%nat
  = Some (GetDetails 0) /\
  log_of (exec (notebook quiet default_params) fresh_world) !! 29%nat
  = Some (WaitRun 0 false).
Proof. repeat split; vm_compute; reflexivity. Qed.

(** C7. The calls come in sequence.  Whatever starts remote work (the
    creation of the cluster, the submission of a run) is followed by the
    wait on that cluster or run, with only calls that watch that run (its
    widget, its details) in between, before anything else is called.  In
    particular the wait on the single training run comes before the
    submission of the search, and the wait on the search before the best
    run is looked up, read or registered.  A wait that returns leaves what
    it waited for complete: the run ended and not failed, the cluster
    provisioned.  So in every execution a cluster the notebook created is
    provisioned by the time a run is submitted to it, the single training
    run has ended without failure by the time the search is submitted, and
    the search has ended without failure by the time its best run is asked
    for. *)
Theorem strictly_sequential pf p w :
  let r := exec (notebook pf p) w in
  let log := log_of r in
  sequential (monitor0 w) log = true /\
  (forall l1 c l2, log = l1 ++ Submit (Sweep c) :: l2 ->
     WaitRun (run_handle w) false ∈ l1 /\
     Submit (Job (single_estimator pf p w)) ∈ l1) /\
  (forall l1 e l2, log = l1 ++ e :: l2 -> uses_best_run e = true ->
     WaitRun (search_handle w) true ∈ l1) /\
  (forall run post s s' sub st,
     wait_for_completion pf run post s = (Ok tt, s') ->
     runs (fst s) !! run = Some (sub, st) ->
     runs (fst s') !! run = Some (sub, Ended (ending pf run)) /\
     ending pf run <> Failed) /\
  (forall name s s' c,
     compute_wait_for_completion pf name s = (Ok tt, s') ->
     clusters (fst s) !! name = Some c ->
     clusters (fst s') !! name
     = Some {| cluster_config := cluster_config c; provisioned := true |}) /\
  (forall c s, CreateCompute (cluster_name p) c ∈ log -> Submit s ∈ log ->
     clusters (world_of r) !! cluster_name p
     = Some {| cluster_config := c; provisioned := true |}) /\
  (forall c, Submit (Sweep c) ∈ log ->
     runs (world_of r) !! run_handle w
     = Some (Job (single_estimator pf p w), Ended (ending pf (run_handle w))) /\
     ending pf (run_handle w) <> Failed) /\
  (GetBestRun (search_handle w) ∈ log ->
     runs (world_of r) !! search_handle w
     = Some (Sweep (search_config pf p w), Ended (ending pf (search_handle w))) /\
     ending pf (search_handle w) <> Failed).
Proof.
  intros r log. destruct (notebook_log_prefix pf p w) as [created Hpre].
  fold r log in Hpre.
  destruct (notebook_effects pf p w)
    as (_ & _ & _ & _ & _ & _ & _ & _ & Hprov & Hrun & Hsearch).
  fold r log in Hprov, Hrun, Hsearch.
  split; [|split; [|split; [|split; [|split; [|split; [|split]]]]]].
  - eapply sequential_prefix; [exact Hpre | apply script_sequential].
  - intros l1 c l2 Hlog. split.
    + destruct (preceded_split _ _ _ _ l1 _ l2
                  (preceded_prefix _ _ _ _ _ Hpre (script_waits_before_search pf p w created))
                  Hlog eq_refl) as [?|(e' & He' & ->%is_wait_run_spec)]; done.
    + destruct (preceded_split _ _ _ _ l1 _ l2
                  (preceded_prefix _ _ _ _ _ Hpre (script_submits_before_search pf p w created))
                  Hlog eq_refl) as [?|(e' & He' & [est ->]%is_submit_job_spec)]; [done|].
      assert (Hin : Submit (Job est) ∈ log)
        by (rewrite Hlog; apply elem_of_app; by left).
      apply submitted_job in Hin as <-. done.
  - intros l1 e l2 Hlog He.
    destruct (preceded_split _ _ _ _ l1 _ l2
                (preceded_prefix _ _ _ _ _ Hpre (script_waits_before_best pf p w created))
                Hlog He) as [?|(e' & He' & ->%is_wait_run_spec)]; done.
  - intros run post s s' sub st Hwait Hr.
    exact (wait_for_completion_ends _ _ _ _ _ _ _ Hwait Hr).
  - intros name s s' c Hwait Hc.
    exact (compute_wait_for_completion_provisions _ _ _ _ _ Hwait Hc).
  - exact Hprov.
  - exact Hrun.
  - exact Hsearch.
Qed.

(** ** The model registry *)

(** Two registrations under one name, one after the other, yield two
    consecutive versions. *)
Lemma register_model_twice pf name path1 path2 run1 run2 s m1 s1 m2 s2 :
  register_model pf name path1 run1 s = (Ok m1, s1) ->
  register_model pf name path2 run2 s1 = (Ok m2, s2) ->
  model_version m2 = S (model_version m1).
Proof.
  unfold register_model, call, modify, get_world, mbind, M_bind, mret, M_ret.
  destruct s as [w h]. cbn.
  destruct (fault pf h _); cbn; [discriminate|]. intros [= <- <-]. cbn.
  destruct (fault pf _ _); cbn; [discriminate|]. intros [= <- _]. cbn.
  by rewrite lookup_insert_eq.
Qed.

(** C6. The notebook registers the run that the search reports as its best
    one, after the wait on the search, under the name
    "torchvision_best_model" and from the path "/outputs/model_latest.pth".
    The model it returns carries the version after the one the registry
    held for that name, so two executions of the notebook, one after the
    other, register two distinct, consecutive versions of the same name.
    And it does register: when no call fails, the configuration file is
    found, neither run ends in failure and the search reports a best run,
    the notebook returns the model of that run and has registered it. *)
Theorem best_model_registration pf p w :
  let r := exec (notebook pf p) w in
  let name := "torchvision_best_model" in
  let path := "/outputs/model_latest.pth" in
  (forall l1 run name' path' l2,
     log_of r = l1 ++ RegisterModel run name' path' :: l2 ->
     name' = name /\ path' = path /\
     best_child pf (search_handle w) = Some run /\
     WaitRun (search_handle w) true ∈ l1) /\
  (forall m, result_of r = Ok m ->
     RegisterModel (model_run m) name path ∈ log_of r /\
     model_name m = name /\ model_path m = path /\
     best_child pf (search_handle w) = Some (model_run m) /\
     model_version m = S (default 0%nat (registry w !! name)) /\
     registry (world_of r) !! name = Some (model_version m)) /\
  (forall pf' p' m1 m2,
     result_of r = Ok m1 ->
     result_of (exec (notebook pf' p') (world_of r)) = Ok m2 ->
     model_name m2 = model_name m1 /\
     model_version m2 = S (model_version m1) /\
     model_version m2 <> model_version m1) /\
  (forall path1 path2 run1 run2 s m1 s1 m2 s2,
     register_model pf name path1 run1 s = (Ok m1, s1) ->
     register_model pf name path2 run2 s1 = (Ok m2, s2) ->
     model_version m2 = S (model_version m1)) /\
  (forall best,
     (forall h e, fault pf h e = None) ->
     dotenv w <> None ->
     ending pf (run_handle w) <> Failed ->
     ending pf (search_handle w) <> Failed ->
     best_child pf (search_handle w) = Some best ->
     result_of r
     = Ok {| model_name := name;
             model_version := S (default 0%nat (registry w !! name));
             model_path := path;
             model_run := best |} /\
     RegisterModel best name path ∈ log_of r /\
     registry (world_of r) !! name = Some (S (default 0%nat (registry w !! name)))).
Proof.
  intros r name path.
  destruct (notebook_summary pf p w) as (Hpre & Hok & Hraise). fold r in Hpre, Hok, Hraise.
  assert (Hreturned : forall m, result_of r = Ok m ->
     RegisterModel (model_run m) name path ∈ log_of r /\
     model_name m = name /\ model_path m = path /\
     best_child pf (search_handle w) = Some (model_run m) /\
     model_version m = S (default 0%nat (registry w !! name)) /\
     registry (world_of r) !! name = Some (model_version m)).
  { intros m Hm. destruct (Hok m Hm) as ([created Hlog] & (b & Hb & ->) & Hreg & _). cbn.
    split; [|repeat split; [done|]].
    - rewrite Hlog. unfold script, registering. rewrite Hb.
      rewrite !elem_of_app. do 4 right. repeat constructor.
    - rewrite Hreg. by rewrite lookup_insert_eq. }
  split; [|split; [|split; [|split]]].
  - intros l1 run name' path' l2 Hlog.
    assert (Hin : RegisterModel run name' path' ∈ log_of r)
      by (rewrite Hlog; apply elem_of_app; right; apply list_elem_of_here).
    apply logged_in_script in Hin as [created Hin].
    assert (Hreg : name' = name /\ path' = path /\
                   best_child pf (search_handle w) = Some run).
    { apply script_cases in Hin as [H|[H|[H|[H|H]]]].
      - unfold preparation in H. in_cases H.
      - apply provisioning_cases in H. in_cases H.
      - unfold training in H. in_cases H.
      - unfold searching in H. in_cases H.
      - apply registering_cases in H as [b [Hb H]]. in_cases H.
        by injection H as -> -> ->. }
    destruct Hreg as (-> & -> & Hbest). repeat split; [done|].
    destruct Hpre as [created' Hpre].
    destruct (preceded_split _ _ _ _ l1 _ l2
                (preceded_prefix _ _ _ _ _ Hpre (script_waits_before_best pf p w created'))
                Hlog eq_refl) as [?|(e' & He' & ->%is_wait_run_spec)]; done.
  - exact Hreturned.
  - intros pf' p' m1 m2 Hm1 Hm2.
    destruct (Hok m1 Hm1) as (_ & (b1 & _ & ->) & Hreg & _).
    destruct (notebook_summary pf' p' (world_of r)) as (_ & Hok' & _).
    destruct (Hok' m2 Hm2) as (_ & (b2 & _ & ->) & _ & _). cbn.
    rewrite Hreg, lookup_insert_eq. cbn. repeat split; lia.
  - intros. eapply register_model_twice; eauto.
  - intros best Hquiet Hfile Hrun Hsearch Hbest.
    destruct (result_of r) as [m|x] eqn:Hres.
    + destruct (Hreturned m eq_refl) as (Hin & Hname & Hpath & Hb & Hver & Hreg).
      assert (model_run m = best) by congruence.
      destruct m as [mn mv mp mr]. cbn in *. subst. done.
    + exfalso.
      destruct (notebook_account pf p w) as (_ & _ & Hcause). fold r in Hcause.
      destruct (Hcause x Hres) as (e & Hlast & Hc).
      assert (Hin : e ∈ log_of r) by (apply last_Some in Hlast as [l' ->];
        apply elem_of_app; right; apply list_elem_of_here).
      destruct Hc as [Hf|(_ & [(-> & -> & Hd)|[(run & post & -> & -> & He)|(run & -> & -> & Hn)]])].
      * by rewrite Hquiet in Hf.
      * done.
      * assert (run = run_handle w \/ run = search_handle w) as [->| ->]; [|done..].
        apply logged_in_script in Hin as [created Hin].
        apply script_cases in Hin as [H|[H|[H|[H|H]]]].
        -- unfold preparation in H. in_cases H.
        -- apply provisioning_cases in H. in_cases H.
        -- unfold training in H. in_cases H. injection H as -> _. by left.
        -- unfold searching in H. in_cases H. injection H as -> _. by right.
        -- apply registering_cases in H as [b [_ H]]. in_cases H.
      * assert (run = search_handle w) as ->; [|congruence].
        apply logged_in_script in Hin as [created Hin].
        apply script_cases in Hin as [H|[H|[H|[H|H]]]].
        -- unfold preparation in H. in_cases H.
        -- apply provisioning_cases in H. in_cases H.
        -- unfold training in H. in_cases H.
        -- unfold searching in H. in_cases H. by injection H as ->.
        -- apply registering_cases in H as [b [_ H]]. in_cases H.
Qed.

Lemma best_model_registration_witness :
  result_of (exec (notebook quiet default_params) fresh_world)
  = Ok {| model_name := "torchvision_best_model"; model_version := 1;
          model_path := "/outputs/model_latest.pth"; model_run := 7 |} /\
  RegisterModel 7 "torchvision_best_model" "/outputs/model_latest.pth"
    ∈ log_of (exec (notebook quiet default_params) fresh_world) /\
  registry (world_of (exec (notebook quiet default_params) fresh_world))
    !! "torchvision_best_model" = Some 1%nat.
Proof.
  destruct (best_model_registration quiet default_params fresh_world)
    as (_ & _ & _ & _ & H).
  apply (H 7%nat); [reflexivity | discriminate | discriminate | discriminate | reflexivity].
Defined.

(** ** The configuration file *)









Section Frame.

Variable f : gmap string string -> gmap string string.



End Frame.









(** ** The notebook at work *)

Example quiet_execution_log :
  log_of (exec (notebook quiet default_params) fresh_world)
  = script quiet default_params fresh_world true.
Proof. vm_compute. reflexivity. Qed.

Example quiet_execution_model :
  result_of (exec (notebook quiet default_params) fresh_world)
  = Ok {| model_name := "torchvision_best_model"; model_version := 1;
          model_path := "/outputs/model_latest.pth"; model_run := 7 |}.
Proof. vm_compute. reflexivity. Qed.

Example existing_cluster_is_reused :
  log_of (exec (notebook quiet default_params) used_world)
  = script quiet default_params used_world false /\
  clusters (world_of (exec (notebook quiet default_params) used_world))
    !! "YOUR_CLUSTER_NAME"
  = Some {| cluster_config := {| vm_size := "STANDARD_D2_V2"; max_nodes := 2 |};
            provisioned := true |} /\
  result_of (exec (notebook quiet default_params) used_world)
  = Ok {| model_name := "torchvision_best_model"; model_version := 2;
          model_path := "/outputs/model_latest.pth"; model_run := 7 |}.
Proof. repeat split; vm_compute; reflexivity. Qed.

Example failed_search_registers_nothing :
  result_of (exec (notebook failing_search default_params) fresh_world)
  = Raise ActivityFailedException /\
  last (log_of (exec (notebook failing_search default_params) fresh_world))
  = Some (WaitRun 1 true) /\
  registry (world_of (exec (notebook failing_search default_params) fresh_world))
    !! "torchvision_best_model" = None.
Proof. repeat split; vm_compute; reflexivity. Qed.

Example missing_dotenv_stops_at_once :
  exec (notebook quiet default_params)
    {| dotenv := None; clusters := ∅; runs := []; registry := ∅ |}
  = (Raise IOError,
     ({| dotenv := None; clusters := ∅; runs := []; registry := ∅ |}, [FindDotenv])).
Proof. vm_compute. reflexivity. Qed.

Example stored_cluster_name :
  env_lookup "cluster_name" (world_of (exec (notebook quiet default_params) fresh_world))
  = Some "YOUR_CLUSTER_NAME" /\
  env_lookup "image_name" (world_of (exec (notebook quiet default_params) fresh_world))
  = Some "torchdetect:latest".
Proof. split; vm_compute; reflexivity. Qed.

Example glued_image_is_submitted :
  custom_docker_image (single_estimator open_ended default_params fresh_world)
  = Some (String.append "torchdetect:latestcluster_name="
            (String.append dquote (String.append "YOUR_CLUSTER_NAME" dquote))) /\
  Submit (Job (single_estimator open_ended default_params fresh_world))
    ∈ log_of (exec (notebook open_ended default_params) fresh_world).
Proof. split; [vm_compute; reflexivity | vm_compute; repeat constructor]. Qed.

Example failed_lookup_replaces_cluster :
  clusters used_world !! "YOUR_CLUSTER_NAME"
  = Some {| cluster_config := {| vm_size := "STANDARD_D2_V2"; max_nodes := 2 |};
            provisioned := true |} /\
  clusters (world_of (exec (notebook failing_lookup default_params) used_world))
    !! "YOUR_CLUSTER_NAME"
  = Some {| cluster_config := {| vm_size := "STANDARD_NC6"; max_nodes := 8 |};
            provisioned := true |} /\
  result_of (exec (notebook failing_lookup default_params) used_world)
  = Ok {| model_name := "torchvision_best_model"; model_version := 2;
          model_path := "/outputs/model_latest.pth"; model_run := 7 |}.
Proof. repeat split; vm_compute; reflexivity. Qed.

Example unawaited_submission_rejected :
  sequential (monitor0 fresh_world)
    [ Submit (Job (single_estimator quiet default_params fresh_world));
      Submit (Sweep (search_config quiet default_params fresh_world)) ] = false.
Proof. reflexivity. Qed.

Example sample_outside_space :
  drawn_from (parameter_space Search.param_sampling)
    [ ("learning_rate", VFloat 0.01); ("rpn_nms_thresh", VFloat 0.5);
      ("anchor_sizes", VStr "16,32"); ("anchor_aspect_ratios", VStr "0.25") ] = false.
Proof. vm_compute. reflexivity. Qed.

(** * Further properties of the notebook *)

(** ** Failures *)

Lemma all_survive_elem pf l1 e l2 :
  all_survive pf [] (l1 ++ e :: l2) = true -> survives pf l1 e = true.
Proof.
  rewrite all_survive_app. cbn. intros [_ [H _]%andb_true_iff]%andb_true_iff. exact H.
Qed.

Lemma survives_fault pf h e x :
  survives pf h e = true -> fault pf h e = Some x -> (forall msg, e <> Print msg) ->
  x = ComputeTargetException /\ exists name, e = LookupCompute name.
Proof.
  intros Hs Hf Hp. unfold survives in Hs.
  destruct e; try (exfalso; by eapply Hp); rewrite Hf in Hs;
    destruct x; cbn in Hs; try discriminate Hs; eauto.
Qed.

Lemma logged_lookup pf p w name :
  LookupCompute name ∈ log_of (exec (notebook pf p) w) -> name = cluster_name p.
Proof.
  intros [created H]%logged_in_script.
  apply script_cases in H as [H|[H|[H|[H|H]]]].
  - unfold preparation in H. in_cases H.
  - apply provisioning_cases in H. in_cases H. by injection H.
  - unfold training in H. in_cases H.
  - unfold searching in H. in_cases H.
  - apply registering_cases in H as [b [_ H]]. in_cases H.
Qed.

(** X1. A call that the platform fails is the last call of the notebook,
    and the notebook raises that call's exception: no exception is caught,
    retried or translated, but for a [ComputeTargetException] of the lookup
    of the cluster. *)
Theorem failure_ends_the_notebook pf p w l1 e l2 x :
  log_of (exec (notebook pf p) w) = l1 ++ e :: l2 ->
  fault pf l1 e = Some x ->
  (forall msg, e <> Print msg) ->
  (l2 = [] /\ result_of (exec (notebook pf p) w) = Raise x)
  \/ (x = ComputeTargetException /\ e = LookupCompute (cluster_name p)).
Proof.
  intros Hlog Hf Hp.
  destruct (notebook_account pf p w) as (Hinit & Hok & Hraise).
  assert (Hlookup : survives pf l1 e = true ->
            x = ComputeTargetException /\ e = LookupCompute (cluster_name p)).
  { intros Hs. destruct (survives_fault _ _ _ _ Hs Hf Hp) as [-> [name ->]].
    split; [done|]. f_equal. apply (logged_lookup pf p w).
    rewrite Hlog. apply elem_of_app. right. apply list_elem_of_here. }
  rewrite Hlog in Hinit, Hok, Hraise.
  destruct l2 as [|e2 l2].
  - destruct (result_of (exec (notebook pf p) w)) as [m|y] eqn:Hres.
    + right. apply Hlookup. eapply all_survive_elem, Hok. done.
    + destruct (Hraise y eq_refl) as (e' & He' & Hc).
      rewrite last_snoc in He'. injection He' as <-.
      rewrite removelast_last in Hc.
      destruct Hc as [Hc|[Hc _]]; rewrite Hf in Hc; [|discriminate].
      injection Hc as ->. by left.
  - right. apply Hlookup.
    rewrite removelast_app in Hinit by discriminate.
    change (removelast (e :: e2 :: l2)) with (e :: removelast (e2 :: l2)) in Hinit.
    eapply all_survive_elem, Hinit.
Qed.

Lemma failure_ends_the_notebook_witness :
  log_of (exec (notebook unauthenticated default_params) fresh_world)
    = [ FindDotenv; SetKey "cluster_name" "YOUR_CLUSTER_NAME" ] ++ GetAuth :: [] /\
  fault unauthenticated [ FindDotenv; SetKey "cluster_name" "YOUR_CLUSTER_NAME" ] GetAuth
    = Some (ServiceError "AuthenticationException") /\
  ((@nil Event = [] /\
    result_of (exec (notebook unauthenticated default_params) fresh_world)
      = Raise (ServiceError "AuthenticationException"))
   \/ (ServiceError "AuthenticationException" = ComputeTargetException
       /\ GetAuth = LookupCompute (cluster_name default_params))).
Proof.
  assert (Hlog : log_of (exec (notebook unauthenticated default_params) fresh_world)
            = [ FindDotenv; SetKey "cluster_name" "YOUR_CLUSTER_NAME" ] ++ GetAuth :: [])
    by (vm_compute; reflexivity).
  assert (Hf : fault unauthenticated
                 [ FindDotenv; SetKey "cluster_name" "YOUR_CLUSTER_NAME" ] GetAuth
               = Some (ServiceError "AuthenticationException"))
    by reflexivity.
  split; [exact Hlog|]. split; [exact Hf|].
  apply (failure_ends_the_notebook unauthenticated default_params fresh_world _ _ _ _ Hlog Hf).
  discriminate.
Defined.

(** X2. When the notebook raises, the call it stopped at is the last one in
    its log, every call before that one went through, and the exception is
    the one the platform failed that call with, or else the call went
    through and the notebook found no [.env] file (IOError), waited for a
    run that had failed (ActivityFailedException), or was given no best run
    by the search (AttributeError). *)
Theorem raised_at_the_last_call pf p w x :
  result_of (exec (notebook pf p) w) = Raise x ->
  exists h e,
    log_of (exec (notebook pf p) w) = h ++ [e] /\
    all_survive pf [] h = true /\
    cause pf w h e x.
Proof.
  intros Hres.
  destruct (notebook_account pf p w) as (Hinit & _ & Hraise).
  destruct (Hraise x Hres) as (e & [h Hlog]%last_Some & Hc).
  rewrite Hlog, removelast_last in Hinit, Hc. eauto.
Qed.

Lemma raised_at_the_last_call_witness :
  result_of (exec (notebook failing_search default_params) fresh_world)
    = Raise ActivityFailedException /\
  exists h e,
    log_of (exec (notebook failing_search default_params) fresh_world) = h ++ [e] /\
    all_survive failing_search [] h = true /\
    cause failing_search fresh_world h e ActivityFailedException.
Proof.
  assert (Hres : result_of (exec (notebook failing_search default_params) fresh_world)
                 = Raise ActivityFailedException)
    by (vm_compute; reflexivity).
  split; [exact Hres|].
  apply (raised_at_the_last_call failing_search default_params fresh_world _ Hres).
Defined.

(** X3. An execution that raises leaves the model registry as it was:
    whatever fails, and wherever, no version is added. *)
Theorem nothing_registered_on_failure pf p w x :
  result_of (exec (notebook pf p) w) = Raise x ->
  registry (world_of (exec (notebook pf p) w)) = registry w.
Proof.
  intros Hres. destruct (notebook_summary pf p w) as (_ & _ & Hraise).
  exact (Hraise x Hres).
Qed.

Lemma nothing_registered_on_failure_witness :
  result_of (exec (notebook failing_search default_params) used_world)
    = Raise ActivityFailedException /\
  registry (world_of (exec (notebook failing_search default_params) used_world))
    = registry used_world.
Proof.
  assert (Hres : result_of (exec (notebook failing_search default_params) used_world)
                 = Raise ActivityFailedException)
    by (vm_compute; reflexivity).
  split; [exact Hres|].
  apply (nothing_registered_on_failure failing_search default_params used_world _ Hres).
Defined.

(** ** Order of the phases *)

Lemma prefix_before {A} (a b l1 l2 : list A) (x : A) :
  l1 ++ x :: l2 `prefix_of` a ++ b -> x ∉ a -> a `prefix_of` l1.
Proof.
  revert l1. induction a as [|y a IH]; intros l1 Hpre Hx; [apply prefix_nil|].
  destruct l1 as [|z l1]; cbn in Hpre.
  - apply prefix_cons_inv_1 in Hpre as ->. destruct Hx. apply list_elem_of_here.
  - pose proof (prefix_cons_inv_1 _ _ _ _ Hpre) as ->.
    apply prefix_cons, IH.
    + by apply prefix_cons_inv_2 in Hpre.
    + intros H. apply Hx. by apply list_elem_of_further.
Qed.

Lemma no_submission_before_training p created s :
  Submit s ∉ preparation p ++ provisioning p created.
Proof.
  intros [H|H]%elem_of_app.
  - unfold preparation in H. in_cases H.
  - apply provisioning_cases in H. in_cases H.
Qed.

(** X4. Nothing is submitted before the data is staged and the compute
    target resolved: every submission comes after the eight copies into
    the script folder, the two uploads, the lookup of the cluster and, when
    the cluster is created, the wait for its provisioning.  In particular
    the entry script of the estimator submitted has been copied into its
    source directory. *)
Theorem prepared_before_submission pf p w l1 s l2 :
  log_of (exec (notebook pf p) w) = l1 ++ Submit s :: l2 ->
  (exists created, preparation p ++ provisioning p created `prefix_of` l1) /\
  Copy (String.append "./scripts/" (entry_script (estimator_of s)))
       (source_directory (estimator_of s)) ∈ l1 /\
  Upload "./scripts/JPEGImages" "JPEGImages" true true ∈ l1 /\
  Upload "./scripts/Annotations" "Annotations" true true ∈ l1 /\
  GetStatus (compute_target (estimator_of s)) ∈ l1 /\
  (forall c, CreateCompute (cluster_name p) c ∈ l1 -> WaitCompute (cluster_name p) ∈ l1).
Proof.
  intros Hlog.
  destruct (notebook_log_prefix pf p w) as [created Hpre].
  rewrite Hlog in Hpre.
  assert (Hscript : forall e, e ∈ l1 -> e ∈ script pf p w created).
  { intros e He. eapply elem_of_prefix; [|exact Hpre]. apply elem_of_app. by left. }
  unfold script in Hpre. rewrite app_assoc in Hpre.
  pose proof (prefix_before _ _ _ _ _ Hpre (no_submission_before_training p created s))
    as Hbefore.
  assert (Hin : forall e, e ∈ preparation p ++ provisioning p created -> e ∈ l1)
    by (intros e He; eapply elem_of_prefix; eauto).
  assert (Hest : entry_script (estimator_of s) = "train.py" /\
                 source_directory (estimator_of s) = script_folder /\
                 compute_target (estimator_of s) = cluster_name p).
  { assert (Hs : Submit s ∈ log_of (exec (notebook pf p) w))
      by (rewrite Hlog; apply elem_of_app; right; apply list_elem_of_here).
    destruct s as [e|c].
    - apply submitted_job in Hs as ->. done.
    - apply submitted_sweep in Hs as ->. done. }
  destruct Hest as (-> & -> & ->).
  split; [eauto|].
  repeat split.
  - apply Hin, elem_of_app. left. unfold preparation. cbn. repeat constructor.
  - apply Hin, elem_of_app. left. unfold preparation. repeat constructor.
  - apply Hin, elem_of_app. left. unfold preparation. repeat constructor.
  - apply Hin, elem_of_app. right. unfold provisioning.
    destruct created; repeat constructor.
  - intros c Hc. apply Hin, elem_of_app. right. unfold provisioning.
    destruct created; [repeat constructor|].
    exfalso. apply Hscript, script_cases in Hc as [H|[H|[H|[H|H]]]].
    + unfold preparation in H. in_cases H.
    + unfold provisioning in H. cbn in H. in_cases H.
    + unfold training in H. in_cases H.
    + unfold searching in H. in_cases H.
    + apply registering_cases in H as [b [_ H]]. in_cases H.
Qed.

Lemma prepared_before_submission_witness :
  log_of (exec (notebook quiet default_params) fresh_world)
    = take 26 (log_of (exec (notebook quiet default_params) fresh_world))
      ++ Submit (Job (single_estimator quiet default_params fresh_world))
      :: drop 27 (log_of (exec (notebook quiet default_params) fresh_world)) /\
  Copy "./scripts/train.py" "./torchdetect"
    ∈ take 26 (log_of (exec (notebook quiet default_params) fresh_world)).
Proof.
  assert (Hlog : log_of (exec (notebook quiet default_params) fresh_world)
            = take 26 (log_of (exec (notebook quiet default_params) fresh_world))
              ++ Submit (Job (single_estimator quiet default_params fresh_world))
              :: drop 27 (log_of (exec (notebook quiet default_params) fresh_world)))
    by (vm_compute; reflexivity).
  split; [exact Hlog|].
  apply (prepared_before_submission quiet default_params fresh_world _ _ _ Hlog).
Defined.

(** ** The two estimators *)

(** X5. The base job of the search is the single training run less the
    sampled parameters: its parameters are those of the single run whose
    names the search does not sample, with the same values and in the same
    order, and everything else about the two estimators is the same (script
    folder and entry script, compute target, image and registry, flags,
    environment variables). *)
Theorem search_template_of_single_run pf p w e c :
  Submit (Job e) ∈ log_of (exec (notebook pf p) w) ->
  Submit (Sweep c) ∈ log_of (exec (notebook pf p) w) ->
  let t := hd_estimator c in
  let sampled := keys (parameter_space (hyperparameter_sampling c)) in
  script_params t
    = List.filter (fun kv => negb (name_in sampled (param_name (fst kv)))) (script_params e) /\
  (forall k, name_in sampled (param_name k) = false ->
     dict_get k (script_params t) = dict_get k (script_params e)) /\
  source_directory t = source_directory e /\
  entry_script t = entry_script e /\
  compute_target t = compute_target e /\
  use_docker t = use_docker e /\
  custom_docker_image t = custom_docker_image e /\
  image_registry_details t = image_registry_details e /\
  user_managed t = user_managed e /\
  use_gpu t = use_gpu e /\
  environment_variables t = environment_variables e /\
  dict_get "PYTHONPATH" (environment_variables e) = Some "$PYTHONPATH:/cocoapi/PythonAPI/".
Proof.
  intros -> %submitted_job -> %submitted_sweep. cbn.
  split; [reflexivity|]. split; [|repeat split].
  intros k Hk.
  repeat match goal with
         | |- context [String.eqb k ?s] =>
             destruct (String.eqb_spec k s) as [->|?]; [try discriminate Hk|]
         end; reflexivity.
Qed.

Lemma search_template_of_single_run_witness :
  Submit (Job (single_estimator quiet default_params fresh_world))
    ∈ log_of (exec (notebook quiet default_params) fresh_world) /\
  Submit (Sweep (search_config quiet default_params fresh_world))
    ∈ log_of (exec (notebook quiet default_params) fresh_world) /\
  environment_variables (hd_estimator (search_config quiet default_params fresh_world))
    = environment_variables (single_estimator quiet default_params fresh_world).
Proof.
  assert (Hjob : Submit (Job (single_estimator quiet default_params fresh_world))
                   ∈ log_of (exec (notebook quiet default_params) fresh_world))
    by (vm_compute; repeat constructor).
  assert (Hsweep : Submit (Sweep (search_config quiet default_params fresh_world))
                   ∈ log_of (exec (notebook quiet default_params) fresh_world))
    by (vm_compute; repeat constructor).
  split; [exact Hjob|]. split; [exact Hsweep|].
  apply (search_template_of_single_run quiet default_params fresh_world _ _ Hjob Hsweep).
Defined.

(** X6. What a submission takes from the configuration file is what the
    file reads as once cluster_name has been written: the keyword argument
    custom_docker_image is the file's image_name, the registry's address,
    user name and password are its acr_server_name, acr_username and
    acr_password, and a key the file does not hold is passed on as [None];
    the notebook does not fail over it.  When the write leaves these four
    keys as they were, these are the values the file held when the notebook
    started. *)
Theorem submission_reads_the_written_file pf p w s :
  Submit s ∈ log_of (exec (notebook pf p) w) ->
  let e := estimator_of s in
  let file := named pf p w in
  custom_docker_image e = env_lookup "image_name" file /\
  address (image_registry_details e) = env_lookup "acr_server_name" file /\
  username (image_registry_details e) = env_lookup "acr_username" file /\
  password (image_registry_details e) = env_lookup "acr_password" file /\
  compute_target e = cluster_name p /\
  dict_get "--data_path" (script_params e) = Some (VRef (as_mount (default_datastore pf))) /\
  dict_get "--epochs" (script_params e) = Some (VInt (num_epochs p)) /\
  (Forall (fun k => env_lookup k file = env_lookup k w)
     [ "image_name"; "acr_server_name"; "acr_username"; "acr_password" ] ->
   custom_docker_image e = env_lookup "image_name" w /\
   address (image_registry_details e) = env_lookup "acr_server_name" w /\
   username (image_registry_details e) = env_lookup "acr_username" w /\
   password (image_registry_details e) = env_lookup "acr_password" w).
Proof.
  intros Hs.
  assert (He : estimator_of s = single_estimator pf p w
               \/ estimator_of s = hd_estimator (search_config pf p w)).
  { destruct s as [e|c].
    - apply submitted_job in Hs as ->. by left.
    - apply submitted_sweep in Hs as ->. by right. }
  cbv zeta. destruct He as [-> | ->];
    unfold search_config, single_estimator, acr;
    cbn -[env_lookup named];
    (do 7 (split; [reflexivity|]);
     intros H; rewrite !Forall_cons in H;
     destruct H as (H1 & H2 & H3 & H4 & _); done).
Qed.

Lemma submission_reads_the_written_file_witness :
  Submit (Job (single_estimator quiet default_params fresh_world))
    ∈ log_of (exec (notebook quiet default_params) fresh_world) /\
  custom_docker_image (single_estimator quiet default_params fresh_world)
    = env_lookup "image_name" (named quiet default_params fresh_world) /\
  address (image_registry_details (single_estimator quiet default_params fresh_world))
    = env_lookup "acr_server_name" (named quiet default_params fresh_world).
Proof.
  assert (Hjob : Submit (Job (single_estimator quiet default_params fresh_world))
                   ∈ log_of (exec (notebook quiet default_params) fresh_world))
    by (vm_compute; repeat constructor).
  split; [exact Hjob|].
  pose proof (submission_reads_the_written_file quiet default_params fresh_world _ Hjob) as H.
  cbv zeta in H. destruct H as (H1 & H2 & _). split; [exact H1 | exact H2].
Defined.

(** ** The workspace after an execution *)

Lemma returned_log_is_script pf p w m :
  result_of (exec (notebook pf p) w) = Ok m ->
  exists created, log_of (exec (notebook pf p) w) = script pf p w created.
Proof. intros Hm. by apply (notebook_summary pf p w) in Hm as [? _]. Qed.

Lemma returned_has_submitted pf p w m :
  result_of (exec (notebook pf p) w) = Ok m ->
  Submit (Job (single_estimator pf p w)) ∈ log_of (exec (notebook pf p) w).
Proof.
  intros [created ->]%returned_log_is_script.
  unfold script, training. rewrite !elem_of_app. do 2 right. left. repeat constructor.
Qed.

(** X7. Compute resolution is idempotent.  After an execution that
    returned, a further execution under the same cluster name creates no
    cluster and leaves the clusters as they are, whatever else happens to
    it, unless its lookup itself fails with [ComputeTargetException]. *)
Theorem cluster_created_once pf p w m pf' p' :
  result_of (exec (notebook pf p) w) = Ok m ->
  cluster_name p' = cluster_name p ->
  fault pf' (preparation p') (LookupCompute (cluster_name p'))
    <> Some ComputeTargetException ->
  let w1 := world_of (exec (notebook pf p) w) in
  (forall n c, CreateCompute n c ∉ log_of (exec (notebook pf' p') w1)) /\
  clusters (world_of (exec (notebook pf' p') w1)) = clusters w1.
Proof.
  intros Hm Hname Hfault w1.
  destruct (notebook_effects pf p w) as (_ & Hexists & _).
  pose proof (Hexists _ (returned_has_submitted pf p w m Hm)) as [cl Hcl].
  fold w1 in Hcl. rewrite <- Hname in Hcl.
  destruct (notebook_effects pf' p' w1) as (Hcreated & _ & _ & _ & _ & _ & Hsame & _).
  assert (Hnone : forall n c, CreateCompute n c ∉ log_of (exec (notebook pf' p') w1)).
  { intros n c Hc. destruct (Hcreated n c Hc) as [Hno|Hf]; [congruence | done]. }
  split; [exact Hnone|].
  destruct Hsame as [Hsame|[c Hc]]; [exact Hsame | by destruct (Hnone _ _ Hc)].
Qed.

Lemma cluster_created_once_witness :
  result_of (exec (notebook quiet default_params) fresh_world)
    = Ok {| model_name := "torchvision_best_model"; model_version := 1;
            model_path := "/outputs/model_latest.pth"; model_run := 7 |} /\
  cluster_name default_params = cluster_name default_params /\
  fault quiet (preparation default_params) (LookupCompute (cluster_name default_params))
    <> Some ComputeTargetException /\
  clusters (world_of (exec (notebook quiet default_params)
                        (world_of (exec (notebook quiet default_params) fresh_world))))
    = clusters (world_of (exec (notebook quiet default_params) fresh_world)).
Proof.
  assert (Hm : result_of (exec (notebook quiet default_params) fresh_world)
               = Ok {| model_name := "torchvision_best_model"; model_version := 1;
                       model_path := "/outputs/model_latest.pth"; model_run := 7 |})
    by (vm_compute; reflexivity).
  assert (Hf : fault quiet (preparation default_params)
                 (LookupCompute (cluster_name default_params))
               <> Some ComputeTargetException)
    by discriminate.
  split; [exact Hm|]. split; [reflexivity|]. split; [exact Hf|].
  apply (cluster_created_once quiet default_params fresh_world _ quiet default_params
           Hm eq_refl Hf).
Defined.

(** X8. The notebook touches one cluster at most.  A cluster of another
    name is left as it is; and so is the cluster of that name when the
    workspace has it and the lookup does not fail with
    [ComputeTargetException]: it is reused as it stands, whatever its
    configuration. *)
Theorem clusters_left_alone pf p w :
  let r := exec (notebook pf p) w in
  (forall n, n <> cluster_name p -> clusters (world_of r) !! n = clusters w !! n) /\
  (forall c, clusters w !! cluster_name p = Some c ->
     fault pf (preparation p) (LookupCompute (cluster_name p))
       <> Some ComputeTargetException ->
     clusters (world_of r) = clusters w) /\
  (forall n c, CreateCompute n c ∈ log_of r ->
     n = cluster_name p /\ c = {| vm_size := "STANDARD_NC6"; max_nodes := 8 |}).
Proof.
  intros r.
  destruct (notebook_effects pf p w) as (Hcreated & _ & _ & _ & Hother & _ & Hsame & _).
  fold r in Hcreated, Hother, Hsame.
  split; [exact Hother|]. split.
  - intros c Hc Hf. destruct Hsame as [Hsame|[c' Hc']]; [exact Hsame|].
    destruct (Hcreated _ _ Hc') as [Hno|Hf']; [congruence | done].
  - intros n c [created H]%logged_in_script.
    apply script_cases in H as [H|[H|[H|[H|H]]]].
    + unfold preparation in H. in_cases H.
    + apply provisioning_cases in H. in_cases H. by injection H as -> ->.
    + unfold training in H. in_cases H.
    + unfold searching in H. in_cases H.
    + apply registering_cases in H as [b [_ H]]. in_cases H.
Qed.

(** X9. The notebook touches one name of the model registry at most: the
    version of every other model is what it was, and the version of
    "torchvision_best_model" goes up by one when the notebook returns and
    stays when it raises. *)
Theorem registry_left_alone pf p w :
  let r := exec (notebook pf p) w in
  let version := fun reg : gmap string nat => default 0%nat (reg !! "torchvision_best_model") in
  (forall n, n <> "torchvision_best_model" ->
     registry (world_of r) !! n = registry w !! n) /\
  version (registry (world_of r))
    = match result_of r with
      | Ok _ => S (version (registry w))
      | Raise _ => version (registry w)
      end.
Proof.
  intros r version.
  destruct (notebook_effects pf p w) as (_ & _ & _ & _ & _ & Hother & _ & _).
  destruct (notebook_summary pf p w) as (_ & Hok & Hraise).
  fold r in Hother, Hok, Hraise.
  split; [exact Hother|].
  destruct (result_of r) as [m|x].
  - destruct (Hok m eq_refl) as (_ & _ & Hreg & _).
    unfold version. by rewrite Hreg, lookup_insert_eq.
  - unfold version. by rewrite (Hraise x eq_refl).
Qed.

(** X10. The runs the experiment had are left as they were.  The notebook
    adds two runs at most, its own, after them; when it returns it has
    added exactly the single training run and then the search, and both
    have ended without failing. *)
Theorem experiment_runs pf p w :
  let r := exec (notebook pf p) w in
  (forall i sr, runs w !! i = Some sr -> runs (world_of r) !! i = Some sr) /\
  (length (runs w) <= length (runs (world_of r)) <= length (runs w) + 2)%nat /\
  (forall m, result_of r = Ok m ->
     runs (world_of r)
     = runs w ++ [ (Job (single_estimator pf p w), Ended (ending pf (run_handle w)));
                   (Sweep (search_config pf p w), Ended (ending pf (search_handle w))) ] /\
     ending pf (run_handle w) <> Failed /\
     ending pf (search_handle w) <> Failed).
Proof.
  intros r.
  destruct (notebook_effects pf p w) as (_ & _ & (new & Hnew & Hpre) & Hok & _).
  fold r in Hnew, Hok.
  split; [|split; [|exact Hok]].
  - intros i sr Hi. rewrite Hnew. by apply lookup_app_l_Some.
  - rewrite Hnew, length_app. apply prefix_length in Hpre.
    rewrite length_map in Hpre. cbn in Hpre. lia.
Qed.

(** X11. A run is only ever submitted to a cluster the workspace has: the
    compute target of whatever is submitted names a cluster of the world the
    execution leaves (the one found, or the one created on the way). *)
Theorem submitted_to_a_cluster pf p w s :
  Submit s ∈ log_of (exec (notebook pf p) w) ->
  is_Some (clusters (world_of (exec (notebook pf p) w))
             !! compute_target (estimator_of s)).
Proof.
  intros Hs.
  destruct (notebook_effects pf p w) as (_ & Hexists & _).
  assert (Hct : compute_target (estimator_of s) = cluster_name p).
  { destruct s as [e|c].
    - by apply submitted_job in Hs as ->.
    - by apply submitted_sweep in Hs as ->. }
  rewrite Hct. eauto.
Qed.

Lemma submitted_to_a_cluster_witness :
  Submit (Job (single_estimator quiet default_params fresh_world))
    ∈ log_of (exec (notebook quiet default_params) fresh_world) /\
  is_Some (clusters (world_of (exec (notebook quiet default_params) fresh_world))
             !! "YOUR_CLUSTER_NAME").
Proof.
  assert (Hjob : Submit (Job (single_estimator quiet default_params fresh_world))
                   ∈ log_of (exec (notebook quiet default_params) fresh_world))
    by (vm_compute; repeat constructor).
  split; [exact Hjob|].
  apply (submitted_to_a_cluster quiet default_params fresh_world _ Hjob).
Defined.

(** X12. The cluster's name is written before anything else is asked of
    the platform, and nothing after that touches the file: from the moment
    the notebook asks for authentication, the configuration file is what
    the one [set_key] made of it, and stays so whatever fails afterwards.
    It holds the cluster's name whenever [set_key] stored it. *)
Theorem configuration_written_before_authentication pf p w :
  GetAuth ∈ log_of (exec (notebook pf p) w) ->
  let r := exec (notebook pf p) w in
  dotenv (world_of r) = dotenv (named pf p w) /\
  (forall k, env_lookup k (world_of r) = env_lookup k (named pf p w)) /\
  (env_lookup "cluster_name" (named pf p w) = Some (cluster_name p) ->
   env_lookup "cluster_name" (world_of r) = Some (cluster_name p)).
Proof.
  intros Hauth r.
  assert (H : dotenv (world_of r) = dotenv (named pf p w))
    by (by apply (notebook_effects pf p w)).
  unfold env_lookup. rewrite H. done.
Qed.

Lemma configuration_written_before_authentication_witness :
  GetAuth ∈ log_of (exec (notebook unauthenticated default_params) fresh_world) /\
  result_of (exec (notebook unauthenticated default_params) fresh_world)
  = Raise (ServiceError "AuthenticationException") /\
  env_lookup "cluster_name"
    (world_of (exec (notebook unauthenticated default_params) fresh_world))
    = Some "YOUR_CLUSTER_NAME".
Proof.
  assert (Hauth : GetAuth ∈ log_of (exec (notebook unauthenticated default_params) fresh_world))
    by (vm_compute; repeat constructor).
  split; [exact Hauth|]. split; [vm_compute; reflexivity|].
  apply (configuration_written_before_authentication
           unauthenticated default_params fresh_world Hauth).
  vm_compute. reflexivity.
Defined.
